(** * The QMT polling strategy of [模拟.ipynb]

    A shallow embedding of the notebook script: the shared state container
    [A], the decision function [f], the broker callback class
    [MyXtQuantTraderCallback] and the polling loop of [__main__], followed
    by the properties of the written specification that concern them.

    Prices are IEEE binary64 numbers, as the cells of a pandas frame are, and
    are computed with the kernel's primitive floats.  The broker terminal
    ([xt_trader]), the quote service ([xtdata]) and the wall clock are outside
    the script; what they answer is an input of the model and every call the
    script makes to them is recorded in the state. *)

From Stdlib Require Import List String Ascii ZArith Bool Arith Lia.
From Stdlib Require Import PrimFloat FloatOps FloatAxioms SpecFloat.
Import ListNotations.

Open Scope string_scope.
Open Scope list_scope.

(** ** Exceptions and results *)

(** The built-in exceptions the statements of [f] can raise. *)
Inductive Exception : Type :=
| IndexError
| KeyError
| ZeroDivisionError.

Inductive Result (T : Type) : Type :=
| Ok (v : T)
| Raise (e : Exception).

Arguments Ok {T} v.
Arguments Raise {T} e.

(** ** Wall clock *)

(** The fields of a [datetime.datetime] value. *)
Record datetime : Type := mkDatetime {
  year : nat;
  month : nat;
  day : nat;
  hour : nat;
  minute : nat;
  second : nat;
  microsecond : nat
}.

Definition valid_time (t : datetime) : Prop :=
  hour t < 24 /\ minute t < 60 /\ second t < 60.

Definition digit (d : nat) : ascii := ascii_of_nat (48 + d).

(** A [%H], [%M] or [%S] field: two decimal digits, zero padded. *)
Definition two_digits (n : nat) : string :=
  String (digit (n / 10)) (String (digit (n mod 10)) EmptyString).

(** [now.strftime('%H%M%S')] *)
Definition strftime_HMS (t : datetime) : string :=
  (two_digits (hour t) ++ two_digits (minute t) ++ two_digits (second t))%string.

Definition seconds_of_day (t : datetime) : Z :=
  Z.of_nat (hour t) * 3600 + Z.of_nat (minute t) * 60 + Z.of_nat (second t).

(** ** Price frames *)

(** One row of a frame: its index label (the bar's time) and its cells. *)
Record Row : Type := mkRow {
  label : Z;
  cells : list float
}.

(** A [DataFrame], as the list of its rows in positional order. *)
Definition DataFrame : Type := list Row.

(** Positional access with Python's negative indices; out of range raises. *)
Definition positional {T : Type} (l : list T) (i : Z) : Result T :=
  let n := Z.of_nat (List.length l) in
  let k := if (i <? 0)%Z then (i + n)%Z else i in
  if ((0 <=? k) && (k <? n))%Z then
    match nth_error l (Z.to_nat k) with
    | Some v => Ok v
    | None => Raise IndexError
    end
  else Raise IndexError.

(** [df.iloc[i, j]]: the row axis is resolved first, then the column axis. *)
Definition iloc (df : DataFrame) (i j : Z) : Result float :=
  match positional df i with
  | Ok r => positional (cells r) j
  | Raise e => Raise e
  end.

(** The mapping returned by [get_market_data_ex]: instrument code to frame,
    in insertion order. *)
Definition Dict : Type := list (string * DataFrame).

Definition keys (data : Dict) : list string := map fst data.

(** [data[stock]] *)
Fixpoint getitem (data : Dict) (stock : string) : Result DataFrame :=
  match data with
  | [] => Raise KeyError
  | (k, df) :: rest => if String.eqb stock k then Ok df else getitem rest stock
  end.

(** [x in l] on a list of strings. *)
Definition contains (x : string) (l : list string) : bool :=
  existsb (String.eqb x) l.

(** [x / y] with the check of Python's true division; numpy's scalars would
    answer [inf] or [nan] with a warning instead of raising, so this is the
    stricter of the two readings. *)
Definition truediv (x y : float) : Result float :=
  if PrimFloat.eqb y 0 then Raise ZeroDivisionError else Ok (PrimFloat.div x y).

(** The conditional expression bound to [ratio]:
    [cuurent_price / pre_price - 1 if pre_price > 0 else 0]. *)
Definition ratio (cuurent_price pre_price : float) : Result float :=
  if PrimFloat.ltb 0 pre_price then
    match truediv cuurent_price pre_price with
    | Ok q => Ok (PrimFloat.sub q 1)
    | Raise e => Raise e
    end
  else Ok 0%float.

(** The literal [0.09], that is the binary64 number nearest to it. *)
Definition threshold : float := 0x1.70a3d70a3d70ap-4%float.

(** ** Orders *)

Record StockAccount : Type := mkStockAccount {
  account_id : string;
  account_type : string
}.

(** The members of [xtconstant] the script names. *)
Inductive OrderType : Type := STOCK_BUY | STOCK_SELL.
Inductive PriceType : Type := LATEST_PRICE | FIX_PRICE.

(** The arguments of one [order_stock_async] call. *)
Record Order : Type := mkOrder {
  account : StockAccount;
  stock_code : string;
  order_type : OrderType;
  order_volume : Z;
  price_type : PriceType;
  price : Z;
  strategy_name : string;
  order_remark : string
}.

(** The broker terminal, seen from the script: what its calls return.
    [order_stock_async] answers a request sequence number, positive when the
    request was handed over and [-1] when it was not; the number depends on
    the requests made before and on the request itself. *)
Record XtQuantTrader : Type := mkTrader {
  connect : Z;
  subscribe : Z;
  async_seq_of : list Order -> Order -> Z
}.

(** ** Standard output *)

Inductive Piece : Type :=
| PTime (t : datetime)
| PText (s : string)
| PNum (z : Z).

(** One printed line, as the values it was formatted from. *)
Definition Line : Type := list Piece.

(** ** State *)

(** The instance [A] of the empty class [_a], used as a name space. *)
Record _a : Type := mk_a {
  bought_list : list string;
  hsa : list string
}.

Inductive XtdataCall : Type :=
| DownloadHistoryData (code : string)
| SubscribeQuote (code : string)
| GetMarketDataEx (codes : list string).

(** Everything the script reads and writes: the container [A], the requests
    the broker received with the sequence number each was answered, the
    lines printed, the calls made to [xtdata] and the seconds slept. *)
Record World : Type := mkWorld {
  A : _a;
  requests : list (Order * Z);
  stdout : list Line;
  xtdata_calls : list XtdataCall;
  slept : nat
}.

(** The state after the module level statements, for a given sector list. *)
Definition initial (sector : list string) : World :=
  {| A := {| bought_list := []; hsa := sector |};
     requests := [];
     stdout := [];
     xtdata_calls := [];
     slept := 0 |}.

Definition sent (w : World) : list Order := map fst (requests w).

(** ** Statements: state passing with exceptions *)

Definition M (T : Type) : Type := World -> Result T * World.

Definition ret {T : Type} (v : T) : M T := fun w => (Ok v, w).

Definition bind {T U : Type} (m : M T) (k : T -> M U) : M U :=
  fun w =>
    match m w with
    | (Ok v, w') => k v w'
    | (Raise e, w') => (Raise e, w')
    end.

Definition lift {T : Type} (r : Result T) : M T := fun w => (r, w).

Definition gets {T : Type} (g : World -> T) : M T := fun w => (Ok (g w), w).

Notation "x <- m ;; k" := (bind m (fun x => k))
  (at level 61, m at next level, right associativity).
Notation "m ;;; k" := (bind m (fun _ => k))
  (at level 61, right associativity).

(** [print(...)] *)
Definition print (l : Line) : M unit :=
  fun w =>
    (Ok tt, {| A := A w; requests := requests w; stdout := stdout w ++ [l];
               xtdata_calls := xtdata_calls w; slept := slept w |}).

(** [A.bought_list.append(stock)] *)
Definition bought_list_append (stock : string) : M unit :=
  fun w =>
    (Ok tt, {| A := {| bought_list := bought_list (A w) ++ [stock];
                       hsa := hsa (A w) |};
               requests := requests w; stdout := stdout w;
               xtdata_calls := xtdata_calls w; slept := slept w |}).

(** [for x in xs: body(x)]; an exception leaves the loop. *)
Fixpoint for_each {T : Type} (xs : list T) (body : T -> M unit) : M unit :=
  match xs with
  | [] => ret tt
  | x :: rest => body x ;;; for_each rest body
  end.

Section Strategy.

(** The globals [xt_trader] and [acc] that [__main__] sets up. *)
Variable xt_trader : XtQuantTrader.
Variable acc : StockAccount.

(** [xt_trader.order_stock_async(...)]: the request reaches the terminal
    and its sequence number comes back. *)
Definition order_stock_async (o : Order) : M Z :=
  fun w =>
    let seq := async_seq_of xt_trader (sent w) o in
    (Ok seq, {| A := A w; requests := requests w ++ [(o, seq)];
                stdout := stdout w; xtdata_calls := xtdata_calls w;
                slept := slept w |}).

(** The body of the loop of [f] for one key of [data]. *)
Definition f_stock (now : datetime) (data : Dict) (stock : string) : M unit :=
  universe <- gets (fun w => hsa (A w)) ;;
  if negb (contains stock universe) then ret tt
  else
    df <- lift (getitem data stock) ;;
    cuurent_price <- lift (iloc df (-1) 0) ;;
    df' <- lift (getitem data stock) ;;
    pre_price <- lift (iloc df' (-2) 0) ;;
    change <- lift (ratio cuurent_price pre_price) ;;
    held <- gets (fun w => bought_list (A w)) ;;
    if PrimFloat.ltb threshold change && negb (contains stock held)
    then
      print [PTime now; PText " 最新价 买入 "; PText stock; PText " 100股"] ;;;
      async_seq <- order_stock_async
                     (mkOrder acc stock STOCK_BUY 100 LATEST_PRICE (-1)
                              "strategy_name" stock) ;;
      bought_list_append stock
    else ret tt.

(** [f(data)], with the clock reading of its first statement. *)
Definition f (now : datetime) (data : Dict) : M unit :=
  for_each (keys data) (f_stock now data).

End Strategy.

(** ** The callback class *)

(** The objects of [xtquant.xttype] the terminal pushes, with the attributes
    the handlers read and those that identify the request. *)
Module XtOrder.
Record t : Type := mk { order_id : Z; stock_code : string; order_remark : string }.
End XtOrder.

Module XtTrade.
Record t : Type := mk { order_id : Z; traded_volume : Z; order_remark : string }.
End XtTrade.

Module XtOrderError.
Record t : Type := mk {
  order_id : Z; error_id : Z; error_msg : string; order_remark : string
}.
End XtOrderError.

Module XtCancelError.
Record t : Type := mk { order_id : Z; error_id : Z; error_msg : string }.
End XtCancelError.

Module XtOrderResponse.
Record t : Type := mk { order_id : Z; seq : Z; order_remark : string }.
End XtOrderResponse.

Module XtCancelOrderResponse.
Record t : Type := mk { order_id : Z; cancel_result : Z; seq : Z }.
End XtCancelOrderResponse.

Module XtAccountStatus.
Record t : Type := mk { account_id : string; status : Z }.
End XtAccountStatus.

(** The methods of [MyXtQuantTraderCallback]; [now] is the clock reading
    inside the handler, for those that print it. *)
Module MyXtQuantTraderCallback.

Definition on_disconnected (now : datetime) : M unit :=
  print [PTime now; PText "连接断开回调"].

Definition on_stock_order (order : XtOrder.t) (now : datetime) : M unit :=
  print [PTime now; PText "委托回调"; PText (XtOrder.order_remark order)].

Definition on_stock_trade (trade : XtTrade.t) (now : datetime) : M unit :=
  print [PTime now; PText "成交回调"; PText (XtTrade.order_remark trade)].

Definition on_order_error (order_error : XtOrderError.t) : M unit :=
  print [PText "委托报错回调 "; PText (XtOrderError.order_remark order_error);
         PText " "; PText (XtOrderError.error_msg order_error)].

Definition on_cancel_error (cancel_error : XtCancelError.t) (now : datetime)
  : M unit :=
  print [PTime now; PText "on_cancel_error"].

Definition on_order_stock_async_response (response : XtOrderResponse.t)
  : M unit :=
  print [PText "异步委托回调 "; PText (XtOrderResponse.order_remark response)].

Definition on_cancel_order_stock_async_response
  (response : XtCancelOrderResponse.t) (now : datetime) : M unit :=
  print [PTime now; PText "on_cancel_order_stock_async_response"].

Definition on_account_status (status : XtAccountStatus.t) (now : datetime)
  : M unit :=
  print [PTime now; PText "on_account_status"].

End MyXtQuantTraderCallback.

(** What the terminal's thread can push to the registered callback object. *)
Inductive Push : Type :=
| Disconnected
| StockOrder (order : XtOrder.t)
| StockTrade (trade : XtTrade.t)
| OrderError (order_error : XtOrderError.t)
| CancelError (cancel_error : XtCancelError.t)
| OrderStockAsyncResponse (response : XtOrderResponse.t)
| CancelOrderStockAsyncResponse (response : XtCancelOrderResponse.t)
| AccountStatus (status : XtAccountStatus.t).

(** The method the terminal calls for a push. *)
Definition callback (p : Push) (now : datetime) : M unit :=
  match p with
  | Disconnected => MyXtQuantTraderCallback.on_disconnected now
  | StockOrder o => MyXtQuantTraderCallback.on_stock_order o now
  | StockTrade t => MyXtQuantTraderCallback.on_stock_trade t now
  | OrderError e => MyXtQuantTraderCallback.on_order_error e
  | CancelError e => MyXtQuantTraderCallback.on_cancel_error e now
  | OrderStockAsyncResponse r =>
      MyXtQuantTraderCallback.on_order_stock_async_response r
  | CancelOrderStockAsyncResponse r =>
      MyXtQuantTraderCallback.on_cancel_order_stock_async_response r now
  | AccountStatus s => MyXtQuantTraderCallback.on_account_status s now
  end.

(** ** The main program *)

Definition code_list : list string := ["600000.SH"; "000001.SZ"].

Definition xtdata_call (c : XtdataCall) : M unit :=
  fun w =>
    (Ok tt, {| A := A w; requests := requests w; stdout := stdout w;
               xtdata_calls := xtdata_calls w ++ [c]; slept := slept w |}).

(** [time.sleep(n)] *)
Definition sleep (n : nat) : M unit :=
  fun w =>
    (Ok tt, {| A := A w; requests := requests w; stdout := stdout w;
               xtdata_calls := xtdata_calls w; slept := slept w + n |}).

(** ['093000' <= now_time < '150000'], on strings. *)
Definition in_trading_window (now_time : string) : bool :=
  String.leb "093000" now_time && String.ltb now_time "150000".

(** What the outside answers during one turn of the loop: the clock at the
    top of the loop, the mapping [get_market_data_ex] returns and the clock
    at the first statement of [f]. *)
Record Poll : Type := mkPoll {
  wall : datetime;
  snapshot : Dict;
  f_wall : datetime
}.

(** How the [while True] loop is left; [Polling] when the answers given run
    out with the loop still turning. *)
Inductive LoopExit : Type :=
| Break
| Uncaught (e : Exception)
| Polling.

(** One turn, from the fetch on: the statements after the window check. *)
Definition poll_body (xt_trader : XtQuantTrader) (acc : StockAccount)
  (p : Poll) : M unit :=
  xtdata_call (GetMarketDataEx code_list) ;;;
  f xt_trader acc (f_wall p) (snapshot p) ;;;
  sleep 3.

Fixpoint polling_loop (xt_trader : XtQuantTrader) (acc : StockAccount)
  (polls : list Poll) (w : World) : LoopExit * World :=
  match polls with
  | [] => (Polling, w)
  | p :: rest =>
      let now := wall p in
      let now_time := strftime_HMS now in
      if negb (in_trading_window now_time) then
        (Break, snd (print [PTime now; PText " 非交易时间 循环退出"] w))
      else
        match poll_body xt_trader acc p w with
        | (Ok _, w') => polling_loop xt_trader acc rest w'
        | (Raise e, w') => (Uncaught e, w')
        end
  end.

(** How a run of the script stands once the answers given are used up.
    [xt_trader.run_forever()] keeps the main thread from leaving, as the
    script's comments say of it, so the call of [interact] after it is not
    reached. *)
Inductive Termination : Type :=
| Exited (status : Z)
| Traceback (e : Exception)
| BlockedInRunForever
| StillPolling.

(** The statements of [__main__] before the loop. *)
Definition setup (xt_trader : XtQuantTrader) : M unit :=
  print [PText "start"] ;;;
  print [PText "建立交易连接，返回0表示连接成功"; PNum (connect xt_trader)] ;;;
  print [PText "对交易回调进行订阅，订阅后可以收到交易主推，返回0表示订阅成功";
         PNum (subscribe xt_trader)] ;;;
  for_each code_list
    (fun code => xtdata_call (DownloadHistoryData code) ;;;
                 xtdata_call (SubscribeQuote code)).

Definition main (xt_trader : XtQuantTrader) (polls : list Poll) (w : World)
  : Termination * World :=
  let acc := mkStockAccount "2000128" "STOCK" in
  match setup xt_trader w with
  | (Raise e, w1) => (Traceback e, w1)
  | (Ok _, w1) =>
      match polling_loop xt_trader acc polls w1 with
      | (Break, w2) => (BlockedInRunForever, w2)
      | (Uncaught e, w2) => (Traceback e, w2)
      | (Polling, w2) => (StillPolling, w2)
      end
  end.

(** ** Operations and runs *)

(** Whatever can touch the state during a run: the statements of the main
    thread and the handlers the terminal's thread calls in between. *)
Inductive Operation : Type :=
| CallF (acc : StockAccount) (now : datetime) (data : Dict)
| Pushed (p : Push) (now : datetime)
| Setup
| Turn (acc : StockAccount) (p : Poll)
| Loop (acc : StockAccount) (polls : list Poll)
| Main (polls : list Poll).

(** The state an operation leaves, also when it ends with an exception. *)
Definition perform (xt_trader : XtQuantTrader) (op : Operation) (w : World)
  : World :=
  match op with
  | CallF acc now data => snd (f xt_trader acc now data w)
  | Pushed p now => snd (callback p now w)
  | Setup => snd (setup xt_trader w)
  | Turn acc p => snd (poll_body xt_trader acc p w)
  | Loop acc polls => snd (polling_loop xt_trader acc polls w)
  | Main polls => snd (main xt_trader polls w)
  end.

Definition run (xt_trader : XtQuantTrader) (ops : list Operation) (w : World)
  : World :=
  fold_left (fun w' op => perform xt_trader op w') ops w.

(** ** Auxiliary definitions for the statements *)

(** The price test of [f_stock] for one key, which reads [data] alone:
    whether the relative change exceeds the threshold, or the exception the
    indexing raises. *)
Definition signal (data : Dict) (stock : string) : Result bool :=
  match getitem data stock with
  | Raise e => Raise e
  | Ok df =>
      match iloc df (-1) 0 with
      | Raise e => Raise e
      | Ok cuurent_price =>
          match iloc df (-2) 0 with
          | Raise e => Raise e
          | Ok pre_price =>
              match ratio cuurent_price pre_price with
              | Raise e => Raise e
              | Ok change => Ok (PrimFloat.ltb threshold change)
              end
          end
      end
  end.

(** The order [f] places for an instrument. *)
Definition buy_order (acc : StockAccount) (stock : string) : Order :=
  mkOrder acc stock STOCK_BUY 100 LATEST_PRICE (-1) "strategy_name" stock.

(** The state after the three statements of the buying branch. *)
Definition bought (xt_trader : XtQuantTrader) (acc : StockAccount)
  (now : datetime) (stock : string) (w : World) : World :=
  {| A := {| bought_list := bought_list (A w) ++ [stock]; hsa := hsa (A w) |};
     requests := requests w
                 ++ [(buy_order acc stock,
                      async_seq_of xt_trader (sent w) (buy_order acc stock))];
     stdout := stdout w
               ++ [[PTime now; PText " 最新价 买入 "; PText stock; PText " 100股"]];
     xtdata_calls := xtdata_calls w;
     slept := slept w |}.

(** The requests of a state that name a given instrument. *)
Definition orders_for (stock : string) (w : World) : list Order :=
  filter (fun o => String.eqb (stock_code o) stock) (sent w).

(** The requests and the open list tell the same story: no instrument is
    listed twice, the requests name the listed instruments in order, and each
    request carries its instrument as remark. *)
Definition consistent (w : World) : Prop :=
  NoDup (bought_list (A w)) /\
  map stock_code (sent w) = bought_list (A w) /\
  Forall (fun o => order_remark o = stock_code o) (sent w).

(** A row that holds a price: it has a first cell. *)
Definition price_row (r : Row) : Prop := cells r <> [].

(** A frame with at least two price rows. *)
Definition two_price_rows (df : DataFrame) : Prop :=
  2 <= List.length df /\ Forall price_row df.

(** Every frame of the mapping has at least two price rows. *)
Definition priced (data : Dict) : Prop :=
  Forall (fun kv => two_price_rows (snd kv)) data.

(** The ordering law of the written specification for one frame: the labels
    of its rows never decrease. *)
Fixpoint nondecreasing (ls : list Z) : bool :=
  match ls with
  | [] => true
  | a :: rest =>
      match rest with
      | [] => true
      | b :: _ => (a <=? b)%Z && nondecreasing rest
      end
  end.

Definition ordered (df : DataFrame) : bool := nondecreasing (map label df).

(** A frame without its labels, and a mapping without them. *)
Definition prices (df : DataFrame) : list (list float) := map cells df.

Definition unlabelled (data : Dict) : list (string * list (list float)) :=
  map (fun kv => (fst kv, prices (snd kv))) data.

(** A request for the instrument was answered a positive sequence number. *)
Definition confirmed (stock : string) (w : World) : Prop :=
  exists o seq, In (o, seq) (requests w) /\ order_remark o = stock /\ (0 < seq)%Z.

(** The trading window in seconds of the day: 09:30:00 to 15:00:00. *)
Definition window_open : Z := 9 * 3600 + 30 * 60.
Definition window_close : Z := 15 * 3600.

(** The string test of the loop against the hour and minute it stands for,
    on one time of day. *)
Definition window_agrees (h m s : nat) : bool :=
  Bool.eqb
    (in_trading_window (strftime_HMS (mkDatetime 0 0 0 h m s 0)))
    ((((h =? 9) && (30 <=? m)) || (10 <=? h)) && (h <? 15))%nat.

(** ** Sample inputs *)

Module Sample.

Definition sector : list string := ["600000.SH"; "000001.SZ"; "600519.SH"].

(** A terminal that takes every request and numbers them from one. *)
Definition accepting : XtQuantTrader :=
  mkTrader 0 0 (fun prev _ => Z.of_nat (S (List.length prev))).

(** A terminal without a session: every request is answered [-1]. *)
Definition refusing : XtQuantTrader :=
  mkTrader (-1) (-1) (fun _ _ => (-1)%Z).

Definition acc : StockAccount := mkStockAccount "2000128" "STOCK".

Definition morning : datetime := mkDatetime 2024 1 3 10 15 0 0.
Definition after_close : datetime := mkDatetime 2024 1 3 15 0 1 0.

(** Previous close 10.00, current close 11.00. *)
Definition rising : DataFrame :=
  [mkRow 20240102 [10%float]; mkRow 20240103 [11%float]].

Definition flat : DataFrame :=
  [mkRow 20240102 [10%float]; mkRow 20240103 [10.5%float]].

(** The rows of [rising] with the later label first. *)
Definition disordered : DataFrame :=
  [mkRow 20240103 [10%float]; mkRow 20240102 [11%float]].

Definition data : Dict := [("600000.SH", rising); ("000001.SZ", flat)].

Definition disordered_data : Dict :=
  [("600000.SH", disordered); ("000001.SZ", flat)].

Definition start : World := initial sector.

End Sample.

(** ** Further definitions for the statements *)

(** A clock reading inside the trading window. *)
Definition in_window (t : datetime) : Prop :=
  (window_open <= seconds_of_day t < window_close)%Z.

(** The line [f] prints before a purchase. *)
Definition purchase_line (now : datetime) (stock : string) : Line :=
  [PTime now; PText " 最新价 买入 "; PText stock; PText " 100股"].

(** The three conditions under which [f] buys a key: it is in the universe,
    its price test passes and it is not on the open list. *)
Definition buys (data : Dict) (w : World) (k : string) : bool :=
  contains k (hsa (A w))
  && match signal data k with Ok b => b | Raise _ => false end
  && negb (contains k (bought_list (A w))).

(** The keys of [data] that pass them in the state [w], in key order. *)
Definition picks (data : Dict) (w : World) : list string :=
  filter (buys data w) (keys data).

(** The mapping with older rows put in front of every frame. *)
Definition extend_history (older : string -> DataFrame) (data : Dict) : Dict :=
  map (fun kv => (fst kv, older (fst kv) ++ snd kv)) data.

(** The shape of every order the script places: a purchase of one lot at the
    latest price under the fixed strategy name. *)
Definition lot_purchase (o : Order) : Prop :=
  order_type o = STOCK_BUY /\ order_volume o = 100%Z /\
  price_type o = LATEST_PRICE /\ price o = (-1)%Z /\
  strategy_name o = "strategy_name" /\ order_remark o = stock_code o.

(** Further sample inputs. *)
Module Cases.

(** A frame with a single row. *)
Definition single : DataFrame := [mkRow 20240103 [11%float]].

(** The rising instrument first, then an instrument with a single row. *)
Definition broken_data : Dict :=
  [("600000.SH", Sample.rising); ("000001.SZ", single);
   ("600519.SH", Sample.rising)].

(** A frame whose current close is missing. *)
Definition gap : DataFrame :=
  [mkRow 20240102 [10%float]; mkRow 20240103 [PrimFloat.nan]].

Definition gap_data : Dict := [("600000.SH", gap)].

(** Keys that are not in the sample sector, with frames of any shape. *)
Definition foreign_data : Dict := [("AAPL.US", []); ("MSFT.US", single)].

Definition old_rows (k : string) : DataFrame :=
  [mkRow 20231229 [9%float]; mkRow 20240101 []].

Definition opening : datetime := mkDatetime 2024 1 3 9 30 0 0.
Definition closing : datetime := mkDatetime 2024 1 3 15 0 0 0.

Definition turn (t : datetime) (d : Dict) : Poll := mkPoll t d t.

(** An instrument with a single row in front of the rising instrument. *)
Definition short_first : Dict :=
  [("000001.SZ", single); ("600000.SH", Sample.rising)].

(** A failed cancellation, as the terminal reports it. *)
Definition cancel_failed : XtCancelError.t :=
  XtCancelError.mk 1 (-61) "cancel rejected".

End Cases.

(** ** Basic facts *)

Lemma contains_In (x : string) (l : list string) :
  contains x l = true <-> In x l.
Proof.
  unfold contains. rewrite existsb_exists. split.
  - intros [y [Hy E]]. apply String.eqb_eq in E. now subst.
  - intros H. exists x. split; [assumption | apply String.eqb_refl].
Qed.

Lemma contains_not_In (x : string) (l : list string) :
  contains x l = false <-> ~ In x l.
Proof.
  rewrite <- contains_In. destruct (contains x l); split; congruence.
Qed.

(** [f_stock] is the price test followed by the guarded purchase. *)
Lemma f_stock_eq xt_trader acc now data stock w :
  f_stock xt_trader acc now data stock w =
  if negb (contains stock (hsa (A w))) then (Ok tt, w)
  else match signal data stock with
       | Raise e => (Raise e, w)
       | Ok b =>
           if b && negb (contains stock (bought_list (A w)))
           then (Ok tt, bought xt_trader acc now stock w)
           else (Ok tt, w)
       end.
Proof.
  unfold f_stock, signal, bind, gets, lift, ret. cbn [fst snd].
  destruct (negb (contains stock (hsa (A w)))); [reflexivity |].
  destruct (getitem data stock) as [df | e]; [| reflexivity].
  destruct (iloc df (-1) 0) as [cur | e]; [| reflexivity].
  destruct (iloc df (-2) 0) as [pre | e]; [| reflexivity].
  destruct (ratio cur pre) as [change | e]; [| reflexivity].
  destruct (_ && _); reflexivity.
Qed.

Lemma for_each_cons {T : Type} (x : T) (xs : list T) (body : T -> M unit) w :
  for_each (x :: xs) body w =
  match body x w with
  | (Ok _, w') => for_each xs body w'
  | (Raise e, w') => (Raise e, w')
  end.
Proof. reflexivity. Qed.

(** ** Invariants: one principle for every operation *)

Lemma for_each_invariant {T : Type} (P : World -> Prop) (body : T -> M unit) :
  (forall x w, P w -> P (snd (body x w))) ->
  forall xs w, P w -> P (snd (for_each xs body w)).
Proof.
  intros Hbody xs. induction xs as [| x xs IH]; intros w Hw; [exact Hw |].
  rewrite for_each_cons. specialize (Hbody x w Hw).
  destruct (body x w) as [[[] | e] w']; cbn [snd] in *; auto.
Qed.

(** A property survives the loop of [f] over any keys as soon as it survives
    a purchase made where [f] makes one: the price test passed, the
    instrument is in the universe and is not held. *)
Section Decision.

Variable xt_trader : XtQuantTrader.
Variable data : Dict.
Variable P : World -> Prop.

Hypothesis P_purchase :
  forall acc now stock w,
    signal data stock = Ok true ->
    In stock (hsa (A w)) -> ~ In stock (bought_list (A w)) ->
    P w -> P (bought xt_trader acc now stock w).

Lemma f_stock_preserves acc now stock w :
  P w -> P (snd (f_stock xt_trader acc now data stock w)).
Proof.
  intros Hw. rewrite f_stock_eq.
  destruct (contains stock (hsa (A w))) eqn:Hu; cbn [negb]; [| exact Hw].
  destruct (signal data stock) as [b | e] eqn:Hs; [| exact Hw].
  destruct b; cbn [andb]; [| exact Hw].
  destruct (contains stock (bought_list (A w))) eqn:Hb; cbn [negb snd];
    [exact Hw |].
  apply P_purchase;
    [exact Hs | now apply contains_In | now apply contains_not_In
    | exact Hw].
Qed.

Lemma keys_loop_preserves acc now ks w :
  P w -> P (snd (for_each ks (f_stock xt_trader acc now data) w)).
Proof.
  apply for_each_invariant. intros x w'. apply f_stock_preserves.
Qed.

Lemma f_preserves acc now w :
  P w -> P (snd (f xt_trader acc now data w)).
Proof. apply keys_loop_preserves. Qed.

End Decision.

Section Invariant.

Variable xt_trader : XtQuantTrader.
Variable P : World -> Prop.

(** [P] reads the container and the requests only ... *)
Hypothesis P_frame :
  forall w w', A w' = A w -> requests w' = requests w -> P w -> P w'.

(** ... and survives a purchase made under the two guards of [f]. *)
Hypothesis P_bought :
  forall acc now stock w,
    In stock (hsa (A w)) -> ~ In stock (bought_list (A w)) ->
    P w -> P (bought xt_trader acc now stock w).

Lemma f_invariant acc now data w :
  P w -> P (snd (f xt_trader acc now data w)).
Proof. apply f_preserves. intros acc' now' stock w' _. apply P_bought. Qed.

Lemma callback_invariant p now w : P w -> P (snd (callback p now w)).
Proof. destruct p; apply P_frame; reflexivity. Qed.

Lemma setup_invariant w : P w -> P (snd (setup xt_trader w)).
Proof. apply P_frame; reflexivity. Qed.

Lemma poll_body_invariant acc p w :
  P w -> P (snd (poll_body xt_trader acc p w)).
Proof.
  intros Hw. unfold poll_body, bind. cbn [xtdata_call].
  match goal with
  | |- context [f xt_trader acc ?n ?d ?w1] =>
      assert (H1 : P (snd (f xt_trader acc n d w1)))
        by (apply f_invariant; revert Hw; apply P_frame; reflexivity);
      destruct (f xt_trader acc n d w1) as [[[] | e] w2]
  end; cbn [snd] in *; [| exact H1].
  revert H1. apply P_frame; reflexivity.
Qed.

Lemma polling_loop_invariant acc polls :
  forall w, P w -> P (snd (polling_loop xt_trader acc polls w)).
Proof.
  induction polls as [| p rest IH]; intros w Hw; [exact Hw |].
  cbn [polling_loop].
  destruct (negb (in_trading_window (strftime_HMS (wall p)))).
  - cbn [snd]. revert Hw. apply P_frame; reflexivity.
  - pose proof (poll_body_invariant acc p w Hw) as H1.
    destruct (poll_body xt_trader acc p w) as [[[] | e] w1]; cbn [snd] in *;
      auto.
Qed.

Lemma main_invariant polls w : P w -> P (snd (main xt_trader polls w)).
Proof.
  intros Hw. unfold main.
  pose proof (setup_invariant w Hw) as H1.
  destruct (setup xt_trader w) as [[[] | e] w1]; cbn [snd] in *; [| exact H1].
  pose proof (polling_loop_invariant (mkStockAccount "2000128" "STOCK")
                polls w1 H1) as H2.
  destruct (polling_loop _ _ polls w1) as [[| e |] w2]; exact H2.
Qed.

Lemma perform_invariant op w : P w -> P (perform xt_trader op w).
Proof.
  destruct op; cbn [perform];
    auto using f_invariant, callback_invariant, setup_invariant,
      poll_body_invariant, polling_loop_invariant, main_invariant.
Qed.

End Invariant.

(** ** What every operation keeps *)

Lemma sent_bought xt_trader acc now stock w :
  sent (bought xt_trader acc now stock w) = sent w ++ [buy_order acc stock].
Proof. unfold sent, bought. cbn [requests]. now rewrite map_app. Qed.

Lemma NoDup_snoc {T : Type} (l : list T) (x : T) :
  NoDup l -> ~ In x l -> NoDup (l ++ [x]).
Proof.
  intros Hl Hx. induction l as [| y l IH]; cbn [app].
  - constructor; [intros [] | constructor].
  - inversion Hl as [| ? ? Hy Hl']; subst. constructor.
    + intros Hin. apply in_app_or in Hin. destruct Hin as [Hin | [E | []]].
      * now apply Hy.
      * apply Hx. now left.
    + apply IH; [assumption |]. intros Hin. apply Hx. now right.
Qed.

Lemma initial_consistent sector : consistent (initial sector).
Proof. repeat split; constructor. Qed.

Lemma perform_consistent xt_trader op w :
  consistent w -> consistent (perform xt_trader op w).
Proof.
  apply (perform_invariant xt_trader consistent).
  - intros w1 w2 HA HR. unfold consistent, sent. now rewrite HA, HR.
  - intros acc now stock w1 _ Hnew (Hnd & Hmap & Hrem).
    unfold consistent. rewrite sent_bought. cbn [bought A bought_list].
    repeat split.
    + now apply NoDup_snoc.
    + rewrite map_app, Hmap. reflexivity.
    + apply Forall_app. split; [assumption | repeat constructor].
Qed.

Lemma run_consistent xt_trader ops sector :
  consistent (run xt_trader ops (initial sector)).
Proof.
  unfold run. generalize (initial_consistent sector).
  generalize (initial sector) as w.
  induction ops as [| op ops IH]; intros w Hw; [exact Hw |].
  cbn [fold_left]. apply IH, perform_consistent, Hw.
Qed.

(** The universe is written once, before any operation. *)
Lemma perform_hsa xt_trader op w : hsa (A (perform xt_trader op w)) = hsa (A w).
Proof.
  apply (perform_invariant xt_trader (fun w' => hsa (A w') = hsa (A w)));
    [| | reflexivity].
  - intros w1 w2 HA _. now rewrite HA.
  - intros acc now stock w1 _ _ H. exact H.
Qed.

Lemma filter_at_most_one {T : Type} (g : T -> string) (s : string) (l : list T) :
  NoDup (map g l) -> List.length (filter (fun o => String.eqb (g o) s) l) <= 1.
Proof.
  induction l as [| o l IH]; cbn [map filter]; intros Hnd; [cbn; lia |].
  inversion Hnd as [| ? ? Hnotin Hnd']; subst.
  destruct (String.eqb (g o) s) eqn:E; [| auto].
  apply String.eqb_eq in E. cbn [List.length].
  assert (Hnil : filter (fun o' => String.eqb (g o') s) l = []).
  { destruct (filter _ l) as [| o' l'] eqn:Hf; [reflexivity | exfalso].
    assert (Hin : In o' (filter (fun o' => String.eqb (g o') s) l))
      by (rewrite Hf; now left).
    apply filter_In in Hin. destruct Hin as [Hin Heq].
    apply String.eqb_eq in Heq. apply Hnotin. rewrite E, <- Heq.
    now apply in_map. }
  rewrite Hnil. cbn. lia.
Qed.

(** ** The guard of the open list *)

Lemma held_no_order xt_trader acc now data w stock :
  In stock (bought_list (A w)) ->
  orders_for stock (snd (f xt_trader acc now data w)) = orders_for stock w.
Proof.
  intros Hin.
  enough (H : In stock (bought_list (A (snd (f xt_trader acc now data w)))) /\
              orders_for stock (snd (f xt_trader acc now data w))
              = orders_for stock w) by apply H.
  apply (f_invariant xt_trader
           (fun w' => In stock (bought_list (A w')) /\
                      orders_for stock w' = orders_for stock w)).
  - intros acc' now' s w1 _ Hnew [Hheld Hsame]. split.
    + cbn [bought A bought_list]. apply in_or_app. now left.
    + unfold orders_for in *. rewrite sent_bought, filter_app, Hsame.
      cbn [filter buy_order stock_code].
      destruct (String.eqb s stock) eqn:E; [| apply app_nil_r].
      apply String.eqb_eq in E. subst. contradiction.
  - split; [assumption | reflexivity].
Qed.

Lemma keys_loop_grows xt_trader acc now data ks w :
  incl (bought_list (A w))
       (bought_list (A (snd (for_each ks (f_stock xt_trader acc now data) w)))).
Proof.
  apply (keys_loop_preserves xt_trader data
           (fun w' => incl (bought_list (A w)) (bought_list (A w'))));
    [| apply incl_refl].
  intros acc' now' s w2 _ _ _ H. cbn [bought A bought_list].
  now apply incl_appl.
Qed.

Lemma f_again_nothing xt_trader acc acc' now now' data :
  forall ks w w2,
    hsa (A w2) = hsa (A w) ->
    incl (bought_list (A (snd (for_each ks (f_stock xt_trader acc now data) w))))
         (bought_list (A w2)) ->
    snd (for_each ks (f_stock xt_trader acc' now' data) w2) = w2.
Proof.
  induction ks as [| k ks IH]; intros w w2 Hu Hincl; [reflexivity |].
  rewrite for_each_cons in *. rewrite f_stock_eq in *. rewrite Hu.
  destruct (contains k (hsa (A w))) eqn:Hk; cbn [negb] in *; [| eauto].
  destruct (signal data k) as [[|] | e]; cbn [andb snd] in *;
    [| eauto | reflexivity].
  assert (Hheld : contains k (bought_list (A w2)) = true).
  { apply contains_In, Hincl.
    destruct (contains k (bought_list (A w))) eqn:Hb; cbn [negb] in *.
    - apply keys_loop_grows. now apply contains_In.
    - apply keys_loop_grows. cbn [bought A bought_list].
      apply in_or_app. right. now left. }
  rewrite Hheld. cbn [negb].
  destruct (contains k (bought_list (A w))); cbn [negb] in *;
    [eauto | apply (IH (bought xt_trader acc now k w)); assumption].
Qed.

Lemma f_idempotent xt_trader acc acc' now now' data w :
  snd (f xt_trader acc' now' data (snd (f xt_trader acc now data w)))
  = snd (f xt_trader acc now data w).
Proof.
  unfold f. apply (f_again_nothing xt_trader acc acc' now now' data _ w).
  - apply (perform_hsa xt_trader (CallF acc now data) w).
  - apply incl_refl.
Qed.

Lemma perform_NoDup xt_trader op w :
  NoDup (bought_list (A w)) -> NoDup (bought_list (A (perform xt_trader op w))).
Proof.
  apply (perform_invariant xt_trader (fun w' => NoDup (bought_list (A w')))).
  - intros w1 w2 HA _. now rewrite HA.
  - intros acc now stock w1 _ Hnew Hnd. cbn [bought A bought_list].
    now apply NoDup_snoc.
Qed.

(** C2: an instrument on the open list is not ordered again by [f], whatever
    the prices; so in a whole run, started from the empty list, no
    instrument gets more than one order, the open list has no duplicates
    (a property every operation keeps), and calling [f] a second time on the
    same data leaves the state of the first call as it is. *)
Theorem no_duplicate_entries (xt_trader : XtQuantTrader) :
  (forall acc now data w stock,
      In stock (bought_list (A w)) ->
      orders_for stock (snd (f xt_trader acc now data w)) = orders_for stock w) /\
  (forall ops sector stock,
      List.length (orders_for stock (run xt_trader ops (initial sector))) <= 1) /\
  (forall ops sector,
      NoDup (bought_list (A (run xt_trader ops (initial sector))))) /\
  (forall op w,
      NoDup (bought_list (A w)) ->
      NoDup (bought_list (A (perform xt_trader op w)))) /\
  (forall acc now now' data w,
      snd (f xt_trader acc now' data (snd (f xt_trader acc now data w)))
      = snd (f xt_trader acc now data w)).
Proof.
  repeat split.
  - intros. now apply held_no_order.
  - intros ops sector stock.
    destruct (run_consistent xt_trader ops sector) as (Hnd & Hmap & _).
    unfold orders_for. apply filter_at_most_one. now rewrite Hmap.
  - intros ops sector. apply (run_consistent xt_trader ops sector).
  - intros op w. apply perform_NoDup.
  - intros. apply f_idempotent.
Qed.

Lemma no_duplicate_entries_witness :
  let held := snd (f Sample.accepting Sample.acc Sample.morning Sample.data
                     Sample.start) in
  In "600000.SH" (bought_list (A held)) /\
  orders_for "600000.SH"
    (snd (f Sample.accepting Sample.acc Sample.after_close Sample.data held))
  = orders_for "600000.SH" held.
Proof.
  cbv zeta. split.
  - vm_compute. left. reflexivity.
  - apply (proj1 (no_duplicate_entries Sample.accepting)).
    vm_compute. left. reflexivity.
Defined.

(** C7: in a run the remarks of the submitted orders are pairwise different:
    each order carries its instrument code as remark and no instrument is
    ordered twice. *)
Theorem remarks_unique (xt_trader : XtQuantTrader) (ops : list Operation)
  (sector : list string) :
  let w := run xt_trader ops (initial sector) in
  NoDup (map order_remark (sent w)) /\
  Forall (fun o => order_remark o = stock_code o) (sent w).
Proof.
  cbv zeta. destruct (run_consistent xt_trader ops sector) as (Hnd & Hmap & Hrem).
  split; [| exact Hrem].
  replace (map order_remark (sent (run xt_trader ops (initial sector))))
    with (map stock_code (sent (run xt_trader ops (initial sector)))).
  - now rewrite Hmap.
  - apply map_ext_Forall.
    eapply Forall_impl; [| exact Hrem]. intros o Ho. now symmetry.
Qed.

Lemma f_orders_in_universe xt_trader acc now data w :
  let w' := snd (f xt_trader acc now data w) in
  hsa (A w') = hsa (A w) /\
  forall o, In o (sent w') -> In o (sent w) \/ In (stock_code o) (hsa (A w)).
Proof.
  cbv zeta.
  apply (f_invariant xt_trader
           (fun w' => hsa (A w') = hsa (A w) /\
                      forall o, In o (sent w') ->
                                In o (sent w) \/ In (stock_code o) (hsa (A w)))).
  - intros acc' now' s w1 Hu _ [Hh Ho]. split; [exact Hh |].
    intros o. rewrite sent_bought. intros Hin.
    apply in_app_or in Hin. destruct Hin as [Hin | [E | []]]; [auto |].
    right. subst o. cbn [buy_order stock_code]. now rewrite <- Hh.
  - split; [reflexivity | auto].
Qed.

Lemma outside_universe_skipped xt_trader acc now data w stock :
  ~ In stock (hsa (A w)) ->
  let w' := snd (f xt_trader acc now data w) in
  orders_for stock w' = orders_for stock w /\
  (In stock (bought_list (A w')) -> In stock (bought_list (A w))).
Proof.
  intros Hout. cbv zeta.
  enough (H : hsa (A (snd (f xt_trader acc now data w))) = hsa (A w) /\
              orders_for stock (snd (f xt_trader acc now data w))
              = orders_for stock w /\
              (In stock (bought_list (A (snd (f xt_trader acc now data w)))) ->
               In stock (bought_list (A w)))) by apply H.
  apply (f_invariant xt_trader
           (fun w' => hsa (A w') = hsa (A w) /\
                      orders_for stock w' = orders_for stock w /\
                      (In stock (bought_list (A w')) ->
                       In stock (bought_list (A w))))).
  - intros acc' now' s w1 Hu _ (Hh & Ho & Hb).
    assert (Hne : String.eqb s stock = false).
    { apply String.eqb_neq. intros E. subst s. apply Hout. now rewrite <- Hh. }
    repeat split.
    + exact Hh.
    + unfold orders_for in *. rewrite sent_bought, filter_app, Ho.
      cbn [filter buy_order stock_code]. rewrite Hne. apply app_nil_r.
    + cbn [bought A bought_list]. intros Hin.
      apply in_app_or in Hin. destruct Hin as [Hin | [E | []]]; [auto |].
      subst s. rewrite String.eqb_refl in Hne. discriminate.
  - repeat split; auto.
Qed.

Lemma perform_within_universe xt_trader op w :
  incl (bought_list (A w)) (hsa (A w)) ->
  incl (bought_list (A (perform xt_trader op w)))
       (hsa (A (perform xt_trader op w))).
Proof.
  apply (perform_invariant xt_trader
           (fun w' => incl (bought_list (A w')) (hsa (A w')))).
  - intros w1 w2 HA _. now rewrite HA.
  - intros acc now stock w1 Hu _ Hincl. cbn [bought A bought_list hsa].
    apply incl_app; [exact Hincl |].
    intros s [E | []]. now subst s.
Qed.

(** C10: [f] orders only instruments of the universe [A.hsa] and passes over
    every other key of the data; no operation changes the universe, and
    every operation keeps the open list inside it. *)
Theorem orders_within_universe (xt_trader : XtQuantTrader) :
  (forall acc now data w o,
      In o (sent (snd (f xt_trader acc now data w))) ->
      In o (sent w) \/ In (stock_code o) (hsa (A w))) /\
  (forall acc now data w stock,
      ~ In stock (hsa (A w)) ->
      orders_for stock (snd (f xt_trader acc now data w)) = orders_for stock w /\
      (In stock (bought_list (A (snd (f xt_trader acc now data w)))) ->
       In stock (bought_list (A w)))) /\
  (forall op w, hsa (A (perform xt_trader op w)) = hsa (A w)) /\
  (forall op w,
      incl (bought_list (A w)) (hsa (A w)) ->
      incl (bought_list (A (perform xt_trader op w)))
           (hsa (A (perform xt_trader op w)))).
Proof.
  repeat apply conj.
  - intros acc now data w. apply (f_orders_in_universe xt_trader acc now data w).
  - intros acc now data w stock Hout.
    apply (outside_universe_skipped xt_trader acc now data w stock Hout).
  - intros op w. apply perform_hsa.
  - intros op w. apply perform_within_universe.
Qed.

Lemma orders_within_universe_witness :
  incl (bought_list (A Sample.start)) (hsa (A Sample.start)) /\
  incl (bought_list
          (A (perform Sample.accepting
                (CallF Sample.acc Sample.morning Sample.data) Sample.start)))
       (hsa (A (perform Sample.accepting
                  (CallF Sample.acc Sample.morning Sample.data) Sample.start))).
Proof.
  assert (H : incl (bought_list (A Sample.start)) (hsa (A Sample.start)))
    by (intros s []).
  split; [exact H |].
  exact (proj2 (proj2 (proj2 (orders_within_universe Sample.accepting)))
           (CallF Sample.acc Sample.morning Sample.data) Sample.start H).
Defined.

(** ** The callback handlers *)

(** C4, as the code has it: whatever the terminal pushes, the handler called
    for it returns normally having printed one line and nothing else: the
    container [A] (so the open list), the requests, the calls to [xtdata]
    and the time slept are as before.  The handler of a failed order prints
    the remark and the message of the failure; the handlers of order
    reports, trade reports and asynchronous order responses print the remark
    too; the handler of a failed cancellation prints the clock and its own
    name and no remark, as do the handlers of cancel responses and account
    status; the handler of a disconnect prints the clock and a fixed text. *)
Theorem callbacks_only_log :
  (forall p now w,
      let w' := snd (callback p now w) in
      fst (callback p now w) = Ok tt /\
      A w' = A w /\ requests w' = requests w /\
      xtdata_calls w' = xtdata_calls w /\ slept w' = slept w /\
      exists line, stdout w' = stdout w ++ [line]) /\
  (forall e now w,
      stdout (snd (callback (OrderError e) now w))
      = stdout w ++ [[PText "委托报错回调 "; PText (XtOrderError.order_remark e);
                      PText " "; PText (XtOrderError.error_msg e)]]) /\
  (forall o now w,
      stdout (snd (callback (StockOrder o) now w))
      = stdout w ++ [[PTime now; PText "委托回调";
                      PText (XtOrder.order_remark o)]]) /\
  (forall t now w,
      stdout (snd (callback (StockTrade t) now w))
      = stdout w ++ [[PTime now; PText "成交回调";
                      PText (XtTrade.order_remark t)]]) /\
  (forall r now w,
      stdout (snd (callback (OrderStockAsyncResponse r) now w))
      = stdout w ++ [[PText "异步委托回调 ";
                      PText (XtOrderResponse.order_remark r)]]) /\
  (forall c now w,
      stdout (snd (callback (CancelError c) now w))
      = stdout w ++ [[PTime now; PText "on_cancel_error"]]) /\
  (forall now w,
      stdout (snd (callback Disconnected now w))
      = stdout w ++ [[PTime now; PText "连接断开回调"]]) /\
  (forall r now w,
      stdout (snd (callback (CancelOrderStockAsyncResponse r) now w))
      = stdout w
        ++ [[PTime now; PText "on_cancel_order_stock_async_response"]]) /\
  (forall a now w,
      stdout (snd (callback (AccountStatus a) now w))
      = stdout w ++ [[PTime now; PText "on_account_status"]]).
Proof.
  repeat apply conj; try reflexivity.
  intros p now w. cbv zeta.
  destruct p; cbn; repeat split; eexists; reflexivity.
Qed.

(** ** When an instrument enters the open list *)

Lemma f_lists_what_it_requests xt_trader acc now data w :
  exists new,
    requests (snd (f xt_trader acc now data w)) = requests w ++ new /\
    bought_list (A (snd (f xt_trader acc now data w)))
    = bought_list (A w) ++ map (fun r => order_remark (fst r)) new.
Proof.
  apply (f_invariant xt_trader
           (fun w' => exists new,
                requests w' = requests w ++ new /\
                bought_list (A w')
                = bought_list (A w) ++ map (fun r => order_remark (fst r)) new)).
  - intros acc' now' s w1 _ _ (new & Hr & Hb).
    exists (new ++ [(buy_order acc' s,
                     async_seq_of xt_trader (sent w1) (buy_order acc' s))]).
    cbn [bought requests A bought_list]. rewrite Hr, Hb, map_app.
    cbn [map fst buy_order order_remark]. now rewrite !app_assoc.
  - exists []. cbn [map]. now rewrite !app_nil_r.
Qed.

Lemma keys_loop_any_terminal xt1 xt2 acc now data :
  forall ks w1 w2,
    A w1 = A w2 ->
    fst (for_each ks (f_stock xt1 acc now data) w1)
    = fst (for_each ks (f_stock xt2 acc now data) w2) /\
    A (snd (for_each ks (f_stock xt1 acc now data) w1))
    = A (snd (for_each ks (f_stock xt2 acc now data) w2)).
Proof.
  induction ks as [| k ks IH]; intros w1 w2 HA; [now split |].
  rewrite !for_each_cons, !f_stock_eq, HA.
  destruct (negb (contains k (hsa (A w2)))); [now apply IH |].
  destruct (signal data k) as [b | e]; [| now split].
  destruct (b && negb (contains k (bought_list (A w2)))); [| now apply IH].
  apply IH. cbn [bought A]. now rewrite HA.
Qed.

(** C5, as the code has it: [f] puts an instrument on the open list in the
    same pass in which it hands the request to the terminal, without looking
    at the sequence number that comes back and without waiting for any
    callback: the list grows by exactly the remarks of the requests made
    during the call, in order, and is the same list whatever the terminal
    answers. *)
Theorem listed_on_request (xt_trader : XtQuantTrader) (acc : StockAccount)
  (now : datetime) (data : Dict) (w : World) :
  (exists new,
      requests (snd (f xt_trader acc now data w)) = requests w ++ new /\
      bought_list (A (snd (f xt_trader acc now data w)))
      = bought_list (A w) ++ map (fun r => order_remark (fst r)) new) /\
  (forall other : XtQuantTrader,
      A (snd (f other acc now data w)) = A (snd (f xt_trader acc now data w))).
Proof.
  split; [apply f_lists_what_it_requests |].
  intros other. unfold f.
  now apply (keys_loop_any_terminal other xt_trader).
Qed.

(** C5, counterexample: the terminal answers [-1] to the request, no request
    for the instrument is confirmed, and the instrument is on the open list
    all the same. *)
Lemma listed_without_confirmation :
  let w' := snd (f Sample.refusing Sample.acc Sample.morning Sample.data
                   Sample.start) in
  ~ In "600000.SH" (bought_list (A Sample.start)) /\
  In "600000.SH" (bought_list (A w')) /\
  requests w' = [(buy_order Sample.acc "600000.SH", (-1)%Z)] /\
  ~ confirmed "600000.SH" w'.
Proof.
  cbv zeta.
  assert (Hreq : requests (snd (f Sample.refusing Sample.acc Sample.morning
                                  Sample.data Sample.start))
                 = [(buy_order Sample.acc "600000.SH", (-1)%Z)])
    by (vm_compute; reflexivity).
  split; [| split; [| split]].
  - intros [].
  - vm_compute. left. reflexivity.
  - exact Hreq.
  - intros (o & seq & Hin & _ & Hpos). rewrite Hreq in Hin.
    destruct Hin as [E | []]. inversion E; subst. lia.
Qed.

(** ** The end of the program *)

(** C8, as the code has it: when the loop is left through the window check
    the main thread goes on to [xt_trader.run_forever()] and stays there; no
    run of the script ends with an exit status. *)
Theorem window_exit_blocks (xt_trader : XtQuantTrader) (polls : list Poll)
  (w : World) :
  (fst (polling_loop xt_trader (mkStockAccount "2000128" "STOCK") polls
          (snd (setup xt_trader w))) = Break ->
   fst (main xt_trader polls w) = BlockedInRunForever) /\
  (forall status, fst (main xt_trader polls w) <> Exited status).
Proof.
  unfold main.
  replace (setup xt_trader w) with (Ok tt, snd (setup xt_trader w))
    by reflexivity.
  cbn [snd].
  destruct (polling_loop _ _ polls _) as [[| e |] w2]; cbn [fst];
    split; intros; congruence.
Qed.

Lemma window_exit_blocks_witness :
  fst (main Sample.accepting
         [mkPoll Sample.morning Sample.data Sample.morning;
          mkPoll Sample.after_close Sample.data Sample.after_close]
         Sample.start) = BlockedInRunForever.
Proof.
  apply (proj1 (window_exit_blocks Sample.accepting _ Sample.start)).
  vm_compute. reflexivity.
Defined.

(** C8, counterexample: polled at 15:00:01 the script leaves the loop and
    then blocks; it does not end with exit status 0. *)
Lemma no_exit_status_after_close :
  fst (main Sample.accepting
         [mkPoll Sample.after_close Sample.data Sample.after_close]
         Sample.start) = BlockedInRunForever /\
  fst (main Sample.accepting
         [mkPoll Sample.after_close Sample.data Sample.after_close]
         Sample.start) <> Exited 0.
Proof. split; [vm_compute; reflexivity | vm_compute; discriminate]. Qed.

(** ** The trading window *)

Lemma window_agrees_everywhere :
  forallb (fun h =>
    forallb (fun m =>
      forallb (fun s => window_agrees h m s) (seq 0 60)) (seq 0 60)) (seq 0 24)
  = true.
Proof. vm_compute. reflexivity. Qed.

(** On a valid time of day the comparison of the formatted strings is the
    comparison of the times. *)
Lemma in_trading_window_spec (t : datetime) :
  valid_time t ->
  in_trading_window (strftime_HMS t) = true <->
  (window_open <= seconds_of_day t < window_close)%Z.
Proof.
  intros (Hh & Hm & Hs).
  pose proof window_agrees_everywhere as Hall.
  rewrite forallb_forall in Hall.
  specialize (Hall (hour t)). rewrite in_seq in Hall.
  specialize (Hall ltac:(lia)). rewrite forallb_forall in Hall.
  specialize (Hall (minute t)). rewrite in_seq in Hall.
  specialize (Hall ltac:(lia)). rewrite forallb_forall in Hall.
  specialize (Hall (second t)). rewrite in_seq in Hall.
  specialize (Hall ltac:(lia)).
  unfold window_agrees in Hall. apply Bool.eqb_prop in Hall.
  change (strftime_HMS (mkDatetime 0 0 0 (hour t) (minute t) (second t) 0))
    with (strftime_HMS t) in Hall.
  rewrite Hall. unfold window_open, window_close, seconds_of_day.
  rewrite andb_true_iff, orb_true_iff, andb_true_iff, Nat.eqb_eq,
    !Nat.leb_le, Nat.ltb_lt.
  lia.
Qed.

(** C3: a turn of the loop whose clock reading is outside 09:30:00 to
    15:00:00 leaves the loop at once: it prints the closing line and does
    nothing else, so no data is fetched, [f] is not called, nothing is
    requested from the terminal and the later turns never happen. *)
Theorem outside_window_breaks (xt_trader : XtQuantTrader) (acc : StockAccount)
  (p : Poll) (rest : list Poll) (w : World) :
  valid_time (wall p) ->
  ~ (window_open <= seconds_of_day (wall p) < window_close)%Z ->
  let r := polling_loop xt_trader acc (p :: rest) w in
  fst r = Break /\
  A (snd r) = A w /\ requests (snd r) = requests w /\
  xtdata_calls (snd r) = xtdata_calls w /\ slept (snd r) = slept w /\
  stdout (snd r) = stdout w ++ [[PTime (wall p); PText " 非交易时间 循环退出"]].
Proof.
  intros Hvalid Hout. cbv zeta. cbn [polling_loop].
  destruct (in_trading_window (strftime_HMS (wall p))) eqn:Hin.
  - exfalso. apply Hout. now apply in_trading_window_spec.
  - cbn. repeat split; reflexivity.
Qed.

Lemma outside_window_breaks_witness :
  let r := polling_loop Sample.accepting Sample.acc
             [mkPoll Sample.after_close Sample.data Sample.after_close;
              mkPoll Sample.morning Sample.data Sample.morning]
             Sample.start in
  fst r = Break /\ requests (snd r) = [] /\ xtdata_calls (snd r) = [].
Proof.
  cbv zeta.
  destruct (outside_window_breaks Sample.accepting Sample.acc
              (mkPoll Sample.after_close Sample.data Sample.after_close)
              [mkPoll Sample.morning Sample.data Sample.morning]
              Sample.start) as (Hb & _ & Hr & Hx & _).
  - unfold valid_time. cbn. lia.
  - unfold window_open, window_close, seconds_of_day.
    cbn [wall hour minute second Sample.after_close]. lia.
  - repeat split; assumption.
Defined.

(** ** Indexing and division *)

Lemma positional_in_range {T : Type} (l : list T) (i : Z) :
  (- Z.of_nat (List.length l) <= i < Z.of_nat (List.length l))%Z ->
  exists v, positional l i = Ok v /\ In v l.
Proof.
  intros Hi. unfold positional.
  set (n := Z.of_nat (List.length l)) in *.
  set (k := if (i <? 0)%Z then (i + n)%Z else i).
  assert (Hk : (0 <= k < n)%Z).
  { subst k. destruct (Z.ltb_spec i 0); lia. }
  replace ((0 <=? k)%Z && (k <? n)%Z) with true
    by (symmetry; apply andb_true_iff; split;
        [apply Z.leb_le | apply Z.ltb_lt]; lia).
  destruct (nth_error l (Z.to_nat k)) as [v |] eqn:E.
  - exists v. split; [reflexivity | eapply nth_error_In; eassumption].
  - apply nth_error_None in E. subst n. lia.
Qed.

Lemma positional_out_of_range {T : Type} (l : list T) (i : Z) :
  (i < - Z.of_nat (List.length l) \/ Z.of_nat (List.length l) <= i)%Z ->
  positional l i = Raise IndexError.
Proof.
  intros Hi. unfold positional.
  set (n := Z.of_nat (List.length l)) in *.
  set (k := if (i <? 0)%Z then (i + n)%Z else i).
  assert (Hk : (k < 0 \/ n <= k)%Z).
  { subst k. destruct (Z.ltb_spec i 0); lia. }
  replace ((0 <=? k)%Z && (k <? n)%Z) with false; [reflexivity |].
  symmetry. apply andb_false_iff.
  destruct Hk; [left; apply Z.leb_gt | right; apply Z.ltb_ge]; lia.
Qed.

Lemma positional_map {T U : Type} (g : T -> U) (l : list T) (i : Z) :
  positional (map g l) i =
  match positional l i with
  | Ok v => Ok (g v)
  | Raise e => Raise e
  end.
Proof.
  unfold positional. rewrite length_map, nth_error_map.
  destruct (_ && _); [| reflexivity].
  destruct (nth_error l _); reflexivity.
Qed.

Lemma iloc_prices (df : DataFrame) (i j : Z) :
  iloc df i j =
  match positional (prices df) i with
  | Ok c => positional c j
  | Raise e => Raise e
  end.
Proof.
  unfold iloc, prices. rewrite positional_map.
  destruct (positional df i); reflexivity.
Qed.

Lemma iloc_two_price_rows (df : DataFrame) :
  two_price_rows df ->
  exists cur pre, iloc df (-1) 0 = Ok cur /\ iloc df (-2) 0 = Ok pre.
Proof.
  intros [Hlen Hrows]. rewrite Forall_forall in Hrows. unfold iloc.
  destruct (positional_in_range df (-1)) as (r1 & E1 & In1); [lia |].
  destruct (positional_in_range df (-2)) as (r2 & E2 & In2); [lia |].
  rewrite E1, E2.
  assert (Hcell : forall r, In r df -> exists v, positional (cells r) 0 = Ok v).
  { intros r Hr. specialize (Hrows r Hr). unfold price_row in Hrows.
    destruct (positional_in_range (cells r) 0) as (v & Ev & _).
    - destruct (cells r); [congruence | cbn [List.length]; lia].
    - now exists v. }
  destruct (Hcell r1 In1) as [cur Hcur].
  destruct (Hcell r2 In2) as [pre Hpre].
  now exists cur, pre.
Qed.

Lemma iloc_short_frame (df : DataFrame) :
  List.length df < 2 ->
  iloc df (-1) 0 = Raise IndexError \/
  (exists cur, iloc df (-1) 0 = Ok cur) /\ iloc df (-2) 0 = Raise IndexError.
Proof.
  intros Hlen. unfold iloc.
  rewrite (positional_out_of_range df (-2)) by lia.
  destruct (positional df (-1)) as [r |] eqn:E1.
  - destruct (positional (cells r) 0) as [cur | e] eqn:E2.
    + right. split; [now exists cur | reflexivity].
    + left. unfold positional in E2.
      destruct (_ && _); [| congruence].
      destruct (nth_error _ _); congruence.
  - left. unfold positional in E1.
    destruct (_ && _); [| congruence].
    destruct (nth_error _ _); congruence.
Qed.

(** A number above zero is not zero: the divisor the guard lets through. *)
Lemma positive_not_zero (y : float) :
  PrimFloat.ltb 0 y = true -> PrimFloat.eqb y 0 = false.
Proof.
  rewrite ltb_spec, eqb_spec.
  change (Prim2SF 0) with (S754_zero false).
  destruct (Prim2SF y) as [[|] | [|] | | [|] m e]; cbn; congruence.
Qed.

Lemma ratio_defined (cuurent_price pre_price : float) :
  exists change, ratio cuurent_price pre_price = Ok change.
Proof.
  unfold ratio, truediv.
  destruct (PrimFloat.ltb 0 pre_price) eqn:Hpos; [| now eexists].
  rewrite (positive_not_zero _ Hpos). now eexists.
Qed.

Lemma getitem_keys (data : Dict) (k : string) :
  In k (keys data) ->
  exists df, getitem data k = Ok df /\ In df (map snd data).
Proof.
  induction data as [| [k' df'] rest IH]; cbn [keys map getitem fst snd];
    [intros [] |].
  intros Hin. destruct (String.eqb_spec k k') as [E | N].
  - exists df'. split; [reflexivity | now left].
  - destruct Hin as [E | Hin]; [congruence |].
    destruct (IH Hin) as (df & Hg & Hdf). exists df. split; [exact Hg | now right].
Qed.

Lemma getitem_is_key (data : Dict) (k : string) (df : DataFrame) :
  getitem data k = Ok df -> In k (keys data).
Proof.
  induction data as [| [k' df'] rest IH]; cbn [keys map getitem fst];
    [discriminate |].
  destruct (String.eqb_spec k k') as [E | N]; [now left | right; auto].
Qed.

Lemma priced_signal (data : Dict) (k : string) :
  priced data -> In k (keys data) -> exists b, signal data k = Ok b.
Proof.
  intros Hp Hk. destruct (getitem_keys data k Hk) as (df & Hg & Hdf).
  assert (H2 : two_price_rows df).
  { unfold priced in Hp. rewrite Forall_forall in Hp.
    apply in_map_iff in Hdf. destruct Hdf as ([k' df'] & E & Hin).
    cbn [snd] in E. subst df'. apply (Hp _ Hin). }
  destruct (iloc_two_price_rows df H2) as (cur & pre & Hc & Hpre).
  destruct (ratio_defined cur pre) as [change Hr].
  unfold signal. rewrite Hg, Hc, Hpre, Hr. now eexists.
Qed.

Lemma keys_loop_total xt_trader acc now data :
  forall ks w,
    (forall k, In k ks -> exists b, signal data k = Ok b) ->
    fst (for_each ks (f_stock xt_trader acc now data) w) = Ok tt.
Proof.
  induction ks as [| k ks IH]; intros w Hks; [reflexivity |].
  rewrite for_each_cons, f_stock_eq.
  assert (Hrest : forall k', In k' ks -> exists b, signal data k' = Ok b)
    by (intros k' Hk'; apply Hks; now right).
  destruct (negb (contains k (hsa (A w)))); [now apply IH |].
  destruct (Hks k (or_introl eq_refl)) as [b Hb]. rewrite Hb.
  destruct (b && negb (contains k (bought_list (A w)))); now apply IH.
Qed.

Lemma unsignalled_no_order xt_trader acc now data w stock :
  signal data stock <> Ok true ->
  orders_for stock (snd (f xt_trader acc now data w)) = orders_for stock w.
Proof.
  intros Hno.
  apply (f_preserves xt_trader data
           (fun w' => orders_for stock w' = orders_for stock w));
    [| reflexivity].
  intros acc' now' s w1 Hs _ _ Hsame.
  unfold orders_for in *. rewrite sent_bought, filter_app, Hsame.
  cbn [filter buy_order stock_code].
  destruct (String.eqb_spec s stock) as [E | N]; [| apply app_nil_r].
  subst s. contradiction.
Qed.

Lemma short_frame_raises xt_trader acc now stock df rest w :
  In stock (hsa (A w)) ->
  List.length df < 2 ->
  f xt_trader acc now ((stock, df) :: rest) w = (Raise IndexError, w).
Proof.
  intros Hu Hlen. unfold f. cbn [keys map fst].
  rewrite for_each_cons, f_stock_eq.
  apply contains_In in Hu. rewrite Hu. cbn [negb].
  unfold signal. cbn [getitem]. rewrite String.eqb_refl.
  destruct (iloc_short_frame df Hlen) as [E1 | [[cur E1] E2]].
  - now rewrite E1.
  - now rewrite E1, E2.
Qed.

(** C9: on data whose frames all have at least two price rows [f] returns
    normally.  The quotient is never taken with a zero divisor, so [ratio]
    always has a value, and it is 0, below the threshold, when the previous
    price is not above zero: no order is made for that instrument.  The two
    rows are needed: with a shorter frame for an instrument of the universe
    the call ends in [IndexError]. *)
Theorem f_total_on_priced_data (xt_trader : XtQuantTrader) (acc : StockAccount)
  (now : datetime) :
  (forall data w, priced data -> fst (f xt_trader acc now data w) = Ok tt) /\
  (forall cuurent_price pre_price,
      exists change, ratio cuurent_price pre_price = Ok change) /\
  (forall cuurent_price pre_price,
      PrimFloat.ltb 0 pre_price = false ->
      ratio cuurent_price pre_price = Ok 0%float /\
      PrimFloat.ltb threshold 0 = false) /\
  (forall data w stock df cuurent_price pre_price,
      getitem data stock = Ok df ->
      iloc df (-1) 0 = Ok cuurent_price ->
      iloc df (-2) 0 = Ok pre_price ->
      PrimFloat.ltb 0 pre_price = false ->
      orders_for stock (snd (f xt_trader acc now data w)) = orders_for stock w) /\
  (forall stock df rest w,
      In stock (hsa (A w)) ->
      List.length df < 2 ->
      f xt_trader acc now ((stock, df) :: rest) w = (Raise IndexError, w)).
Proof.
  repeat apply conj.
  - intros data w Hp. unfold f. apply keys_loop_total.
    intros k Hk. now apply priced_signal.
  - apply ratio_defined.
  - intros cur pre Hpre. unfold ratio. rewrite Hpre. now split.
  - intros data w stock df cur pre Hg Hc Hp Hpre.
    apply unsignalled_no_order.
    unfold signal, ratio. rewrite Hg, Hc, Hp, Hpre.
    change (PrimFloat.ltb threshold 0) with false. discriminate.
  - intros. now apply short_frame_raises.
Qed.

Lemma f_total_on_priced_data_witness :
  priced Sample.data /\
  fst (f Sample.accepting Sample.acc Sample.morning Sample.data Sample.start)
  = Ok tt.
Proof.
  assert (Hp : priced Sample.data).
  { repeat constructor; cbn; discriminate. }
  split; [exact Hp |].
  exact (proj1 (f_total_on_priced_data Sample.accepting Sample.acc
                  Sample.morning) Sample.data Sample.start Hp).
Defined.

(** ** The purchase *)

Lemma held_stays_held xt_trader acc now data stock ks w :
  In stock (bought_list (A w)) ->
  let w' := snd (for_each ks (f_stock xt_trader acc now data) w) in
  orders_for stock w' = orders_for stock w /\
  count_occ string_dec (bought_list (A w')) stock
  = count_occ string_dec (bought_list (A w)) stock.
Proof.
  intros Hheld. cbv zeta.
  enough (H : In stock (bought_list
                 (A (snd (for_each ks (f_stock xt_trader acc now data) w)))) /\
              orders_for stock
                (snd (for_each ks (f_stock xt_trader acc now data) w))
              = orders_for stock w /\
              count_occ string_dec
                (bought_list
                   (A (snd (for_each ks (f_stock xt_trader acc now data) w))))
                stock
              = count_occ string_dec (bought_list (A w)) stock) by apply H.
  apply (keys_loop_preserves xt_trader data
           (fun w' => In stock (bought_list (A w')) /\
                      orders_for stock w' = orders_for stock w /\
                      count_occ string_dec (bought_list (A w')) stock
                      = count_occ string_dec (bought_list (A w)) stock)).
  - intros acc' now' s w1 _ _ Hnew (Hin & Ho & Hc).
    assert (Hne : s <> stock) by (intros E; subst s; contradiction).
    repeat apply conj.
    + cbn [bought A bought_list]. apply in_or_app. now left.
    + unfold orders_for in *. rewrite sent_bought, filter_app, Ho.
      cbn [filter buy_order stock_code].
      destruct (String.eqb_spec s stock); [contradiction | apply app_nil_r].
    + cbn [bought A bought_list]. rewrite count_occ_app, Hc.
      cbn [count_occ]. destruct (string_dec s stock); [contradiction | lia].
  - repeat apply conj; [assumption | reflexivity | reflexivity].
Qed.

Lemma keys_loop_buys xt_trader acc now data stock :
  signal data stock = Ok true ->
  forall ks w,
    (forall k, In k ks -> exists b, signal data k = Ok b) ->
    In stock ks ->
    In stock (hsa (A w)) ->
    ~ In stock (bought_list (A w)) ->
    let w' := snd (for_each ks (f_stock xt_trader acc now data) w) in
    orders_for stock w' = orders_for stock w ++ [buy_order acc stock] /\
    count_occ string_dec (bought_list (A w')) stock = 1.
Proof.
  intros Hsig. induction ks as [| k ks IH]; intros w Hks Hin Hu Hnew;
    [destruct Hin |].
  cbv zeta. rewrite for_each_cons, f_stock_eq.
  assert (Hrest : forall k', In k' ks -> exists b, signal data k' = Ok b)
    by (intros k' Hk'; apply Hks; now right).
  destruct (string_dec k stock) as [E | N].
  - subst k. rewrite Hsig.
    rewrite (proj2 (contains_In _ _) Hu), (proj2 (contains_not_In _ _) Hnew).
    cbn [negb andb].
    destruct (held_stays_held xt_trader acc now data stock ks
                (bought xt_trader acc now stock w)) as [Ho Hc].
    { cbn [bought A bought_list]. apply in_or_app. right. now left. }
    rewrite Ho, Hc. split.
    + unfold orders_for. rewrite sent_bought, filter_app.
      cbn [filter buy_order stock_code]. now rewrite String.eqb_refl.
    + cbn [bought A bought_list]. rewrite count_occ_app.
      rewrite (proj1 (count_occ_not_In string_dec _ _) Hnew).
      cbn [count_occ]. destruct (string_dec stock stock); [reflexivity | congruence].
  - destruct Hin as [E | Hin]; [congruence |].
    destruct (negb (contains k (hsa (A w)))); [now apply IH |].
    destruct (Hks k (or_introl eq_refl)) as [b Hb]. rewrite Hb.
    destruct (b && negb (contains k (bought_list (A w)))); [| now apply IH].
    destruct (IH (bought xt_trader acc now k w) Hrest Hin) as [Ho Hc].
    + exact Hu.
    + cbn [bought A bought_list]. intros H. apply in_app_or in H.
      destruct H as [H | [H | []]]; [contradiction | congruence].
    + split; [| exact Hc]. rewrite Ho. f_equal.
      unfold orders_for. rewrite sent_bought, filter_app.
      cbn [filter buy_order stock_code].
      destruct (String.eqb_spec k stock); [contradiction | apply app_nil_r].
Qed.

(** ** Row labels *)

Lemma for_each_ext {T : Type} (body body' : T -> M unit) (xs : list T) :
  (forall x w, body x w = body' x w) ->
  forall w, for_each xs body w = for_each xs body' w.
Proof.
  intros Hext. induction xs as [| x xs IH]; intros w; [reflexivity |].
  rewrite !for_each_cons, Hext.
  destruct (body' x w) as [[[] | e] w']; [apply IH | reflexivity].
Qed.

Lemma unlabelled_keys (data data' : Dict) :
  unlabelled data = unlabelled data' -> keys data = keys data'.
Proof.
  intros H. apply (f_equal (map fst)) in H. unfold unlabelled in H.
  rewrite !map_map in H. exact H.
Qed.

Lemma unlabelled_getitem (data : Dict) :
  forall data' k,
    unlabelled data = unlabelled data' ->
    match getitem data k, getitem data' k with
    | Ok df, Ok df' => prices df = prices df'
    | Raise e, Raise e' => e = e'
    | _, _ => False
    end.
Proof.
  induction data as [| [k1 df1] rest IH]; intros [| [k2 df2] rest'] k H;
    cbn [unlabelled map fst snd] in H; try discriminate; [reflexivity |].
  injection H as Hk Hp Hrest. subst k2. cbn [getitem].
  destruct (String.eqb k k1); [exact Hp | now apply IH].
Qed.

Lemma unlabelled_signal (data data' : Dict) (k : string) :
  unlabelled data = unlabelled data' -> signal data k = signal data' k.
Proof.
  intros H. pose proof (unlabelled_getitem data data' k H) as Hg.
  unfold signal.
  destruct (getitem data k) as [df | e], (getitem data' k) as [df' | e'];
    try contradiction; [| now subst].
  rewrite !(iloc_prices df), !(iloc_prices df'), Hg. reflexivity.
Qed.

Lemma positional_raises {T : Type} (l : list T) (i : Z) (e : Exception) :
  positional l i = Raise e -> e = IndexError.
Proof.
  unfold positional. destruct (_ && _); [| congruence].
  destruct (nth_error l _); congruence.
Qed.

Lemma signal_raises (data : Dict) (k : string) (e : Exception) :
  In k (keys data) -> signal data k = Raise e -> e = IndexError.
Proof.
  intros Hk. destruct (getitem_keys data k Hk) as (df & Hg & _).
  unfold signal, iloc. rewrite Hg.
  destruct (positional df (-1)) as [r1 | e1] eqn:E1;
    [| intros H; injection H as <-; eapply positional_raises; eassumption].
  destruct (positional (cells r1) 0) as [cur | e1] eqn:E2;
    [| intros H; injection H as <-; eapply positional_raises; eassumption].
  destruct (positional df (-2)) as [r2 | e1] eqn:E3;
    [| intros H; injection H as <-; eapply positional_raises; eassumption].
  destruct (positional (cells r2) 0) as [pre | e1] eqn:E4;
    [| intros H; injection H as <-; eapply positional_raises; eassumption].
  destruct (ratio_defined cur pre) as [change Hr]. rewrite Hr. discriminate.
Qed.

Lemma keys_loop_raises xt_trader acc now data e :
  forall ks w,
    incl ks (keys data) ->
    fst (for_each ks (f_stock xt_trader acc now data) w) = Raise e ->
    e = IndexError.
Proof.
  induction ks as [| k ks IH]; intros w Hks; [discriminate |].
  rewrite for_each_cons, f_stock_eq.
  assert (Hrest : incl ks (keys data))
    by (intros k' Hk'; apply Hks; now right).
  destruct (negb (contains k (hsa (A w)))); [now apply IH |].
  destruct (signal data k) as [b | e'] eqn:Hs.
  - destruct (b && negb (contains k (bought_list (A w)))); now apply IH.
  - cbn [fst]. intros H. injection H as <-.
    apply (signal_raises data k); [apply Hks; now left | exact Hs].
Qed.

(** C6, as the code has it: [f] never reads the labels of the rows.  Two
    mappings with the same keys and the same cells row by row, whatever
    their labels, get the same result and leave the same state, so a frame
    whose labels decrease is handled by position like any other; and the
    only exception a call of [f] ends with is the [IndexError] of the
    positional access. *)
Theorem f_ignores_labels (xt_trader : XtQuantTrader) (acc : StockAccount)
  (now : datetime) (data : Dict) (w : World) :
  (forall data',
      unlabelled data = unlabelled data' ->
      f xt_trader acc now data w = f xt_trader acc now data' w) /\
  (forall e, fst (f xt_trader acc now data w) = Raise e -> e = IndexError).
Proof.
  split.
  - intros data' H. unfold f. rewrite (unlabelled_keys data data' H).
    apply for_each_ext. intros k w1.
    now rewrite !f_stock_eq, (unlabelled_signal data data' k H).
  - intros e. unfold f. apply keys_loop_raises, incl_refl.
Qed.

Lemma f_ignores_labels_witness :
  f Sample.accepting Sample.acc Sample.morning Sample.disordered_data
    Sample.start
  = f Sample.accepting Sample.acc Sample.morning Sample.data Sample.start.
Proof.
  apply (proj1 (f_ignores_labels Sample.accepting Sample.acc Sample.morning
                  Sample.disordered_data Sample.start)).
  reflexivity.
Defined.

(** C6, counterexample: the frame of 600000.SH has its later label first,
    and [f] returns normally, having taken the rows in the order given (the
    last row as the current close) and ordered the instrument. *)
Lemma disordered_frame_accepted :
  ordered Sample.disordered = false /\
  getitem Sample.disordered_data "600000.SH" = Ok Sample.disordered /\
  fst (f Sample.accepting Sample.acc Sample.morning Sample.disordered_data
         Sample.start) = Ok tt /\
  sent (snd (f Sample.accepting Sample.acc Sample.morning
               Sample.disordered_data Sample.start))
  = [buy_order Sample.acc "600000.SH"].
Proof. repeat split; vm_compute; reflexivity. Qed.

(** * Further properties of the script *)

(** ** What a call of [f] reads *)

Lemma contains_snoc_other (k k' : string) (l : list string) :
  k' <> k -> contains k' (l ++ [k]) = contains k' l.
Proof.
  intros Hne. unfold contains. rewrite existsb_app. cbn [existsb].
  destruct (String.eqb_spec k' k); [contradiction |].
  now rewrite !orb_false_r.
Qed.

(** The result of the loop of [f], and the container it leaves, depend on the
    container it starts from and on nothing else of the state, the terminal,
    the account or the clock. *)
Lemma keys_loop_reads_A xt1 xt2 acc1 acc2 now1 now2 data :
  forall ks w1 w2,
    A w1 = A w2 ->
    fst (for_each ks (f_stock xt1 acc1 now1 data) w1)
    = fst (for_each ks (f_stock xt2 acc2 now2 data) w2) /\
    A (snd (for_each ks (f_stock xt1 acc1 now1 data) w1))
    = A (snd (for_each ks (f_stock xt2 acc2 now2 data) w2)).
Proof.
  induction ks as [| k ks IH]; intros w1 w2 HA; [now split |].
  rewrite !for_each_cons, !f_stock_eq, HA.
  destruct (negb (contains k (hsa (A w2)))); [now apply IH |].
  destruct (signal data k) as [b | e]; [| now split].
  destruct (b && negb (contains k (bought_list (A w2)))); [| now apply IH].
  apply IH. cbn [bought A]. now rewrite HA.
Qed.

(** With the same answers of the terminal, the requests follow too. *)
Lemma keys_loop_reads_requests xt1 xt2 acc now1 now2 data :
  async_seq_of xt1 = async_seq_of xt2 ->
  forall ks w1 w2,
    A w1 = A w2 -> requests w1 = requests w2 ->
    requests (snd (for_each ks (f_stock xt1 acc now1 data) w1))
    = requests (snd (for_each ks (f_stock xt2 acc now2 data) w2)).
Proof.
  intros Hseq. induction ks as [| k ks IH]; intros w1 w2 HA HR; [exact HR |].
  rewrite !for_each_cons, !f_stock_eq, HA.
  destruct (negb (contains k (hsa (A w2)))); [now apply IH |].
  destruct (signal data k) as [b | e]; [| exact HR].
  destruct (b && negb (contains k (bought_list (A w2)))); [| now apply IH].
  apply IH; cbn [bought A requests]; unfold sent; now rewrite ?HA, ?HR, ?Hseq.
Qed.

Lemma f_keeps_the_rest xt_trader acc now data w :
  xtdata_calls (snd (f xt_trader acc now data w)) = xtdata_calls w /\
  slept (snd (f xt_trader acc now data w)) = slept w.
Proof.
  apply (f_invariant xt_trader
           (fun w' => xtdata_calls w' = xtdata_calls w /\ slept w' = slept w)).
  - intros acc' now' s w1 _ _ H. exact H.
  - now split.
Qed.

(** ** The purchases of one call *)

Lemma keys_loop_picks xt_trader acc now data :
  forall ks w,
    NoDup ks ->
    (forall k, In k ks -> exists b, signal data k = Ok b) ->
    let w' := snd (for_each ks (f_stock xt_trader acc now data) w) in
    bought_list (A w') = bought_list (A w) ++ filter (buys data w) ks /\
    hsa (A w') = hsa (A w) /\
    sent w' = sent w ++ map (buy_order acc) (filter (buys data w) ks) /\
    stdout w' = stdout w ++ map (purchase_line now) (filter (buys data w) ks).
Proof.
  induction ks as [| k ks IH]; intros w Hnd Hks; cbv zeta.
  - cbn [filter map for_each ret snd]. now rewrite !app_nil_r.
  - inversion Hnd as [| ? ? Hk Hnd']; subst.
    assert (Hrest : forall k', In k' ks -> exists b, signal data k' = Ok b)
      by (intros k' Hk'; apply Hks; now right).
    destruct (Hks k (or_introl eq_refl)) as [b Hb].
    assert (Hbk : buys data w k
                  = contains k (hsa (A w))
                    && (b && negb (contains k (bought_list (A w)))))
      by (unfold buys; rewrite Hb; now rewrite andb_assoc).
    rewrite for_each_cons, f_stock_eq, Hb. cbn [filter]. rewrite Hbk.
    destruct (contains k (hsa (A w))); cbn [negb andb]; [| now apply IH].
    destruct (b && negb (contains k (bought_list (A w)))); [| now apply IH].
    destruct (IH (bought xt_trader acc now k w) Hnd' Hrest)
      as (Hbl & Hu & Hs & Ho).
    assert (Hsame : filter (buys data (bought xt_trader acc now k w)) ks
                    = filter (buys data w) ks).
    { apply filter_ext_in. intros k' Hk'. unfold buys.
      cbn [bought A bought_list hsa].
      rewrite contains_snoc_other; [reflexivity |].
      intros E. subst k'. contradiction. }
    rewrite Hsame in *. rewrite Hbl, Hu, Hs, Ho, sent_bought.
    cbn [bought A bought_list hsa stdout map].
    rewrite <- !app_assoc. now repeat split.
Qed.

(** X1: on a mapping with distinct keys whose frames all have two price
    rows, one call of [f] returns normally and buys exactly the keys that
    are in the universe, pass the price test and are not on the open list,
    in the order of the mapping: these are appended to the open list, one
    request and one printed line is made for each, and nothing else of the
    state changes. *)
Theorem f_buys_the_picks (xt_trader : XtQuantTrader) (acc : StockAccount)
  (now : datetime) (data : Dict) (w : World) :
  NoDup (keys data) ->
  priced data ->
  let w' := snd (f xt_trader acc now data w) in
  fst (f xt_trader acc now data w) = Ok tt /\
  bought_list (A w') = bought_list (A w) ++ picks data w /\
  hsa (A w') = hsa (A w) /\
  sent w' = sent w ++ map (buy_order acc) (picks data w) /\
  stdout w' = stdout w ++ map (purchase_line now) (picks data w) /\
  xtdata_calls w' = xtdata_calls w /\ slept w' = slept w.
Proof.
  intros Hnd Hp. cbv zeta.
  assert (Hks : forall k, In k (keys data) -> exists b, signal data k = Ok b)
    by (intros k Hk; now apply priced_signal).
  destruct (keys_loop_picks xt_trader acc now data (keys data) w Hnd Hks)
    as (Hbl & Hu & Hs & Ho).
  destruct (f_keeps_the_rest xt_trader acc now data w) as [Hx Hsl].
  split; [now apply keys_loop_total |].
  unfold picks, f in *. now repeat split.
Qed.

Lemma f_buys_the_picks_witness :
  let w' := snd (f Sample.accepting Sample.acc Sample.morning Sample.data
                   Sample.start) in
  picks Sample.data Sample.start = ["600000.SH"] /\
  fst (f Sample.accepting Sample.acc Sample.morning Sample.data Sample.start)
  = Ok tt /\
  bought_list (A w') = ["600000.SH"] /\
  sent w' = [buy_order Sample.acc "600000.SH"].
Proof.
  cbv zeta.
  destruct (f_buys_the_picks Sample.accepting Sample.acc Sample.morning
              Sample.data Sample.start) as (Hr & Hbl & _ & Hs & _).
  - repeat constructor; cbn; intuition discriminate.
  - repeat constructor; cbn; discriminate.
  - assert (Hpick : picks Sample.data Sample.start = ["600000.SH"])
      by (vm_compute; reflexivity).
    rewrite Hpick in *. repeat split; assumption.
Defined.

(** ** Keys outside the universe *)

(** X2: when no key of the mapping is in the universe, [f] returns normally
    and leaves the whole state as it was, whatever the frames are: the
    frame of an instrument outside the universe is never indexed, so an
    empty or one-row frame there raises nothing. *)
Theorem f_skips_foreign_keys (xt_trader : XtQuantTrader) (acc : StockAccount)
  (now : datetime) (data : Dict) (w : World) :
  (forall k, In k (keys data) -> ~ In k (hsa (A w))) ->
  f xt_trader acc now data w = (Ok tt, w).
Proof.
  unfold f. generalize (keys data) as ks.
  induction ks as [| k ks IH]; intros Hks; [reflexivity |].
  rewrite for_each_cons, f_stock_eq.
  rewrite (proj2 (contains_not_In k (hsa (A w)))) by (apply Hks; now left).
  cbn [negb]. apply IH. intros k' Hk'. apply Hks. now right.
Qed.

Lemma f_skips_foreign_keys_witness :
  f Sample.accepting Sample.acc Sample.morning Cases.foreign_data Sample.start
  = (Ok tt, Sample.start).
Proof.
  apply f_skips_foreign_keys.
  cbn. intros k [<- | [<- | []]] [H | [H | [H | []]]]; discriminate.
Defined.

(** ** A call that ends in an exception *)

Lemma for_each_app {T : Type} (xs ys : list T) (body : T -> M unit) :
  forall w,
    for_each (xs ++ ys) body w =
    match for_each xs body w with
    | (Ok _, w') => for_each ys body w'
    | (Raise e, w') => (Raise e, w')
    end.
Proof.
  induction xs as [| x xs IH]; intros w; [reflexivity |].
  cbn [app]. rewrite !for_each_cons.
  destruct (body x w) as [[[] | e] w']; [apply IH | reflexivity].
Qed.

Lemma for_each_ext_in {T : Type} (body body' : T -> M unit) (xs : list T) :
  (forall x w, In x xs -> body x w = body' x w) ->
  forall w, for_each xs body w = for_each xs body' w.
Proof.
  induction xs as [| x xs IH]; intros Hext w; [reflexivity |].
  rewrite !for_each_cons, Hext by now left.
  destruct (body' x w) as [[[] | e] w']; [| reflexivity].
  apply IH. intros x' w'' Hx'. apply Hext. now right.
Qed.

Lemma getitem_app_key (data1 data2 : Dict) (k : string) :
  In k (keys data1) -> getitem (data1 ++ data2) k = getitem data1 k.
Proof.
  induction data1 as [| [k1 df1] rest IH]; cbn [keys map fst app getitem];
    [intros [] |].
  intros Hin. destruct (String.eqb_spec k k1) as [E | N]; [reflexivity |].
  apply IH. destruct Hin as [E | Hin]; [congruence | exact Hin].
Qed.

Lemma getitem_app_new (data1 data2 : Dict) (k : string) :
  ~ In k (keys data1) -> getitem (data1 ++ data2) k = getitem data2 k.
Proof.
  induction data1 as [| [k1 df1] rest IH]; cbn [keys map fst app getitem];
    [reflexivity |].
  intros Hout. destruct (String.eqb_spec k k1) as [E | N].
  - exfalso. apply Hout. now left.
  - apply IH. intros Hin. apply Hout. now right.
Qed.

(** X3: an exception does not undo what the call did before it.  When the
    instruments in front are priced and the next key, in the universe, has a
    frame of fewer than two rows, [f] ends in [IndexError] in the state that
    the call on the instruments in front alone would leave: their purchases
    stand, and the keys after the short frame are not looked at. *)
Theorem f_stops_at_short_frame (xt_trader : XtQuantTrader)
  (acc : StockAccount) (now : datetime) (front back : Dict) (k : string)
  (df : DataFrame) (w : World) :
  priced front ->
  ~ In k (keys front) ->
  In k (hsa (A w)) ->
  List.length df < 2 ->
  f xt_trader acc now (front ++ (k, df) :: back) w
  = (Raise IndexError, snd (f xt_trader acc now front w)).
Proof.
  intros Hp Hnew Hu Hlen. unfold f, keys. rewrite map_app. cbn [map fst].
  fold (keys front). fold (keys back).
  rewrite for_each_app.
  rewrite (for_each_ext_in
             (f_stock xt_trader acc now (front ++ (k, df) :: back))
             (f_stock xt_trader acc now front)).
  - assert (Hok : fst (f xt_trader acc now front w) = Ok tt).
    { unfold f. apply keys_loop_total. intros k' Hk'. now apply priced_signal. }
    pose proof (perform_hsa xt_trader (CallF acc now front) w) as Hh.
    unfold f in Hok. cbn [perform] in Hh. unfold f in Hh.
    destruct (for_each (keys front) (f_stock xt_trader acc now front) w)
      as [[[] | e] w1]; [| discriminate].
    cbn [snd] in *. rewrite for_each_cons, f_stock_eq, Hh.
    rewrite (proj2 (contains_In _ _) Hu). cbn [negb].
    unfold signal. rewrite getitem_app_new by assumption.
    cbn [getitem]. rewrite String.eqb_refl.
    destruct (iloc_short_frame df Hlen) as [E1 | [[cur E1] E2]].
    + now rewrite E1.
    + now rewrite E1, E2.
  - intros k' w' Hk'. rewrite !f_stock_eq. unfold signal.
    now rewrite getitem_app_key.
Qed.

Lemma f_stops_at_short_frame_witness :
  let r := f Sample.accepting Sample.acc Sample.morning Cases.broken_data
             Sample.start in
  fst r = Raise IndexError /\
  bought_list (A (snd r)) = ["600000.SH"] /\
  sent (snd r) = [buy_order Sample.acc "600000.SH"].
Proof.
  cbv zeta.
  change Cases.broken_data
    with ([("600000.SH", Sample.rising)]
          ++ ("000001.SZ", Cases.single) :: [("600519.SH", Sample.rising)]).
  rewrite (f_stops_at_short_frame Sample.accepting Sample.acc Sample.morning
             [("600000.SH", Sample.rising)] [("600519.SH", Sample.rising)]
             "000001.SZ" Cases.single Sample.start).
  - repeat split; vm_compute; reflexivity.
  - repeat constructor; cbn; discriminate.
  - cbn. intros [H | []]. discriminate.
  - cbn. auto.
  - cbn. lia.
Defined.

(** ** Missing prices *)

Lemma is_nan_SF (x : float) :
  PrimFloat.is_nan x = true -> Prim2SF x = S754_nan.
Proof.
  unfold PrimFloat.is_nan. rewrite eqb_spec.
  destruct (Prim2SF x) as [[|] | [|] | | [|] m e]; cbn; try discriminate;
    try reflexivity;
    rewrite Z.compare_refl, Pos.compare_cont_refl; discriminate.
Qed.

Lemma ratio_nan (cuurent_price pre_price : float) :
  PrimFloat.is_nan cuurent_price = true \/ PrimFloat.is_nan pre_price = true ->
  exists change,
    ratio cuurent_price pre_price = Ok change /\
    PrimFloat.ltb threshold change = false.
Proof.
  intros Hnan. unfold ratio, truediv.
  destruct (PrimFloat.ltb 0 pre_price) eqn:Hpos.
  - rewrite (positive_not_zero _ Hpos). eexists. split; [reflexivity |].
    destruct Hnan as [Hc | Hp].
    + apply is_nan_SF in Hc.
      rewrite ltb_spec, sub_spec, div_spec, Hc. reflexivity.
    + apply is_nan_SF in Hp. rewrite ltb_spec, Hp in Hpos. discriminate.
  - exists 0%float. split; reflexivity.
Qed.

(** X4: a missing close never buys.  When the current or the previous close
    of an instrument is not a number the price test of [f] fails for it, and
    the call makes no order for that instrument. *)
Theorem nan_close_never_buys (xt_trader : XtQuantTrader) (acc : StockAccount)
  (now : datetime) (data : Dict) (w : World) (stock : string)
  (df : DataFrame) (cuurent_price pre_price : float) :
  getitem data stock = Ok df ->
  iloc df (-1) 0 = Ok cuurent_price ->
  iloc df (-2) 0 = Ok pre_price ->
  PrimFloat.is_nan cuurent_price = true \/ PrimFloat.is_nan pre_price = true ->
  signal data stock = Ok false /\
  orders_for stock (snd (f xt_trader acc now data w)) = orders_for stock w.
Proof.
  intros Hg Hc Hp Hnan.
  destruct (ratio_nan cuurent_price pre_price Hnan) as (change & Hr & Hlt).
  assert (Hs : signal data stock = Ok false)
    by (unfold signal; now rewrite Hg, Hc, Hp, Hr, Hlt).
  split; [exact Hs |].
  apply unsignalled_no_order. rewrite Hs. discriminate.
Qed.

Lemma nan_close_never_buys_witness :
  orders_for "600000.SH"
    (snd (f Sample.accepting Sample.acc Sample.morning Cases.gap_data
            Sample.start)) = [].
Proof.
  destruct (nan_close_never_buys Sample.accepting Sample.acc Sample.morning
              Cases.gap_data Sample.start "600000.SH" Cases.gap
              PrimFloat.nan 10%float) as [_ Hnone].
  - reflexivity.
  - reflexivity.
  - reflexivity.
  - left. reflexivity.
  - exact Hnone.
Defined.

(** ** Older rows *)

Lemma positional_app_back {T : Type} (front l : list T) (i : Z) :
  (- Z.of_nat (List.length l) <= i < 0)%Z ->
  positional (front ++ l) i = positional l i.
Proof.
  intros Hi. unfold positional. rewrite length_app, Nat2Z.inj_add.
  replace (i <? 0)%Z with true by (symmetry; apply Z.ltb_lt; lia).
  set (a := Z.of_nat (List.length front)).
  set (n := Z.of_nat (List.length l)) in *.
  replace ((0 <=? i + (a + n))%Z && (i + (a + n) <? a + n)%Z) with true
    by (symmetry; apply andb_true_iff; split;
        [apply Z.leb_le | apply Z.ltb_lt]; lia).
  replace ((0 <=? i + n)%Z && (i + n <? n)%Z) with true
    by (symmetry; apply andb_true_iff; split;
        [apply Z.leb_le | apply Z.ltb_lt]; lia).
  rewrite nth_error_app2 by (subst a; lia).
  replace (Z.to_nat (i + (a + n)) - List.length front)
    with (Z.to_nat (i + n)) by (subst a; lia).
  reflexivity.
Qed.

Lemma iloc_app_back (front df : DataFrame) (i j : Z) :
  (- Z.of_nat (List.length df) <= i < 0)%Z ->
  iloc (front ++ df) i j = iloc df i j.
Proof. intros Hi. unfold iloc. now rewrite positional_app_back. Qed.

Lemma extend_history_keys older data :
  keys (extend_history older data) = keys data.
Proof.
  unfold keys, extend_history. rewrite map_map. reflexivity.
Qed.

Lemma extend_history_signal older data k :
  Forall (fun kv => 2 <= List.length (snd kv)) data ->
  signal (extend_history older data) k = signal data k.
Proof.
  intros Hlen. unfold signal.
  induction data as [| [k1 df1] rest IH]; [reflexivity |].
  inversion Hlen as [| ? ? H1 Hrest]; subst. cbn [snd] in H1.
  cbn [extend_history map fst snd getitem].
  destruct (String.eqb k k1); [| now apply IH].
  rewrite !iloc_app_back by lia. reflexivity.
Qed.

(** X5: only the last two rows of a frame count.  Putting any older rows in
    front of frames that have two rows already changes nothing: the call
    returns the same result and the same state. *)
Theorem f_ignores_older_rows (xt_trader : XtQuantTrader) (acc : StockAccount)
  (now : datetime) (older : string -> DataFrame) (data : Dict) (w : World) :
  Forall (fun kv => 2 <= List.length (snd kv)) data ->
  f xt_trader acc now (extend_history older data) w
  = f xt_trader acc now data w.
Proof.
  intros Hlen. unfold f. rewrite extend_history_keys.
  apply for_each_ext. intros k w1.
  now rewrite !f_stock_eq, extend_history_signal.
Qed.

Lemma f_ignores_older_rows_witness :
  f Sample.accepting Sample.acc Sample.morning
    (extend_history Cases.old_rows Sample.data) Sample.start
  = f Sample.accepting Sample.acc Sample.morning Sample.data Sample.start.
Proof.
  apply f_ignores_older_rows. repeat constructor.
Defined.

(** ** Turns of the loop *)

Lemma poll_body_eq xt_trader acc p w :
  poll_body xt_trader acc p w =
  match f xt_trader acc (f_wall p) (snapshot p)
          (snd (xtdata_call (GetMarketDataEx code_list) w)) with
  | (Ok _, w') => sleep 3 w'
  | (Raise e, w') => (Raise e, w')
  end.
Proof. reflexivity. Qed.

Lemma polling_loop_in_window xt_trader acc p rest w :
  valid_time (wall p) -> in_window (wall p) ->
  polling_loop xt_trader acc (p :: rest) w =
  match poll_body xt_trader acc p w with
  | (Ok _, w') => polling_loop xt_trader acc rest w'
  | (Raise e, w') => (Uncaught e, w')
  end.
Proof.
  intros Hv Hin. cbn [polling_loop].
  now rewrite (proj2 (in_trading_window_spec (wall p) Hv) Hin).
Qed.

Lemma polling_loop_out_of_window xt_trader acc p rest w :
  valid_time (wall p) -> ~ in_window (wall p) ->
  fst (polling_loop xt_trader acc (p :: rest) w) = Break.
Proof.
  intros Hv Hout. cbn [polling_loop].
  destruct (in_trading_window (strftime_HMS (wall p))) eqn:E; [| reflexivity].
  exfalso. apply Hout. now apply in_trading_window_spec.
Qed.

(** X6: the window is closed below and open above.  For a valid clock
    reading, the first turn leaves the loop through the window check exactly
    when the time of day is before 09:30:00 or at or after 15:00:00;
    otherwise the turn asks [xtdata] for the market data of the two
    subscribed codes, once. *)
Theorem window_is_half_open (xt_trader : XtQuantTrader) (acc : StockAccount)
  (p : Poll) (w : World) :
  valid_time (wall p) ->
  (fst (polling_loop xt_trader acc [p] w) = Break <-> ~ in_window (wall p)) /\
  (in_window (wall p) ->
   xtdata_calls (snd (polling_loop xt_trader acc [p] w))
   = xtdata_calls w ++ [GetMarketDataEx ["600000.SH"; "000001.SZ"]]).
Proof.
  intros Hv.
  assert (Hturn : in_window (wall p) ->
                  fst (polling_loop xt_trader acc [p] w) <> Break /\
                  xtdata_calls (snd (polling_loop xt_trader acc [p] w))
                  = xtdata_calls w
                    ++ [GetMarketDataEx ["600000.SH"; "000001.SZ"]]).
  { intros Hin. rewrite polling_loop_in_window, poll_body_eq by assumption.
    destruct (f_keeps_the_rest xt_trader acc (f_wall p) (snapshot p)
                (snd (xtdata_call (GetMarketDataEx code_list) w))) as [Hx _].
    destruct (f xt_trader acc (f_wall p) (snapshot p) _) as [[[] | e] w1];
      cbn [snd fst polling_loop sleep xtdata_calls] in *;
      (split; [discriminate | exact Hx]). }
  split; [split |].
  - intros Hb Hin. now apply (proj1 (Hturn Hin)).
  - apply polling_loop_out_of_window. exact Hv.
  - intros Hin. apply (proj2 (Hturn Hin)).
Qed.

Lemma window_is_half_open_witness :
  fst (polling_loop Sample.accepting Sample.acc
         [Cases.turn Cases.closing Sample.data] Sample.start) = Break /\
  xtdata_calls
    (snd (polling_loop Sample.accepting Sample.acc
            [Cases.turn Cases.opening Sample.data] Sample.start))
  = [GetMarketDataEx ["600000.SH"; "000001.SZ"]].
Proof.
  split.
  - apply (proj1 (window_is_half_open Sample.accepting Sample.acc
                    (Cases.turn Cases.closing Sample.data) Sample.start
                    ltac:(unfold valid_time; cbn; lia))).
    unfold in_window, window_open, window_close, seconds_of_day.
    cbn [wall Cases.turn hour minute second Cases.closing]. lia.
  - apply (proj2 (window_is_half_open Sample.accepting Sample.acc
                    (Cases.turn Cases.opening Sample.data) Sample.start
                    ltac:(unfold valid_time; cbn; lia))).
    unfold in_window, window_open, window_close, seconds_of_day.
    cbn [wall Cases.turn hour minute second Cases.opening]. lia.
Defined.

Lemma f_reads xt1 xt2 acc now1 now2 data w1 w2 :
  async_seq_of xt1 = async_seq_of xt2 ->
  A w1 = A w2 -> requests w1 = requests w2 ->
  fst (f xt1 acc now1 data w1) = fst (f xt2 acc now2 data w2) /\
  A (snd (f xt1 acc now1 data w1)) = A (snd (f xt2 acc now2 data w2)) /\
  requests (snd (f xt1 acc now1 data w1))
  = requests (snd (f xt2 acc now2 data w2)).
Proof.
  intros Hseq HA HR. unfold f.
  destruct (keys_loop_reads_A xt1 xt2 acc acc now1 now2 data (keys data)
              w1 w2 HA) as [Hr HA'].
  repeat split; [exact Hr | exact HA' |].
  now apply keys_loop_reads_requests.
Qed.

(** X7: while the clock stays inside the window and the data is priced the
    loop keeps turning: after [n] turns it is still polling, has asked for
    the market data [n] times and has slept [3 n] seconds. *)
Theorem steady_polling (xt_trader : XtQuantTrader) (acc : StockAccount)
  (polls : list Poll) (w : World) :
  Forall (fun p => valid_time (wall p) /\ in_window (wall p)
                   /\ priced (snapshot p)) polls ->
  let r := polling_loop xt_trader acc polls w in
  fst r = Polling /\
  slept (snd r) = slept w + 3 * List.length polls /\
  xtdata_calls (snd r)
  = xtdata_calls w ++ repeat (GetMarketDataEx code_list) (List.length polls).
Proof.
  cbv zeta. revert w.
  induction polls as [| p rest IH]; intros w Hall.
  - cbn. rewrite app_nil_r. repeat split. lia.
  - inversion Hall as [| ? ? (Hv & Hin & Hp) Hrest]; subst.
    rewrite polling_loop_in_window, poll_body_eq by assumption.
    set (w1 := snd (xtdata_call (GetMarketDataEx code_list) w)).
    assert (Hok : fst (f xt_trader acc (f_wall p) (snapshot p) w1) = Ok tt).
    { unfold f. apply keys_loop_total. intros k Hk. now apply priced_signal. }
    destruct (f_keeps_the_rest xt_trader acc (f_wall p) (snapshot p) w1)
      as [Hx Hs].
    destruct (f xt_trader acc (f_wall p) (snapshot p) w1) as [[[] | e] w2];
      [| discriminate].
    cbn [snd fst] in *.
    destruct (IH (snd (sleep 3 w2)) Hrest) as (Hr & Hsl & Hcalls).
    cbn [sleep snd fst] in *. rewrite Hr, Hsl, Hcalls, Hx, Hs.
    subst w1. cbn [xtdata_call snd xtdata_calls slept List.length repeat].
    rewrite <- app_assoc. repeat split. lia.
Qed.

Lemma steady_polling_witness :
  let r := polling_loop Sample.accepting Sample.acc
             [Cases.turn Cases.opening Sample.data;
              Cases.turn Sample.morning Sample.data] Sample.start in
  fst r = Polling /\ slept (snd r) = 6.
Proof.
  cbv zeta.
  destruct (steady_polling Sample.accepting Sample.acc
              [Cases.turn Cases.opening Sample.data;
               Cases.turn Sample.morning Sample.data] Sample.start)
    as (Hr & Hs & _).
  - repeat constructor;
      try (unfold in_window, window_open, window_close, seconds_of_day;
           cbn [wall Cases.turn hour minute second Cases.opening
                Sample.morning]; lia);
      cbn; try lia; discriminate.
  - split; [exact Hr | exact Hs].
Defined.

(** X8: nothing catches an exception of [f].  A turn inside the window in
    which [f] raises ends the loop with that exception, after the fetch and
    before the sleep, whatever turns were to follow; and the script as a
    whole ends with the traceback instead of reaching [run_forever]. *)
Theorem exception_leaves_the_loop (xt_trader : XtQuantTrader)
  (acc : StockAccount) (p : Poll) (rest : list Poll) (w : World)
  (e : Exception) :
  valid_time (wall p) ->
  in_window (wall p) ->
  fst (f xt_trader acc (f_wall p) (snapshot p) w) = Raise e ->
  (let r := polling_loop xt_trader acc (p :: rest) w in
   fst r = Uncaught e /\
   slept (snd r) = slept w /\
   xtdata_calls (snd r) = xtdata_calls w ++ [GetMarketDataEx code_list]) /\
  fst (main xt_trader (p :: rest) w) = Traceback e.
Proof.
  intros Hv Hin Hraise.
  assert (Hany : forall acc' w',
             A w' = A w ->
             fst (f xt_trader acc' (f_wall p) (snapshot p) w') = Raise e).
  { intros acc' w' HA. rewrite <- Hraise. unfold f.
    now apply keys_loop_reads_A. }
  split.
  - cbv zeta. rewrite polling_loop_in_window, poll_body_eq by assumption.
    set (w1 := snd (xtdata_call (GetMarketDataEx code_list) w)).
    pose proof (Hany acc w1 eq_refl) as H1.
    destruct (f_keeps_the_rest xt_trader acc (f_wall p) (snapshot p) w1)
      as [Hx Hs].
    destruct (f xt_trader acc (f_wall p) (snapshot p) w1) as [[[] | e'] w2];
      cbn [fst snd] in *; [discriminate |].
    injection H1 as ->. now repeat split.
  - unfold main.
    replace (setup xt_trader w) with (Ok tt, snd (setup xt_trader w))
      by reflexivity.
    cbn [snd]. rewrite polling_loop_in_window, poll_body_eq by assumption.
    set (w1 := snd (xtdata_call (GetMarketDataEx code_list)
                      (snd (setup xt_trader w)))).
    pose proof (Hany (mkStockAccount "2000128" "STOCK") w1 eq_refl) as H1.
    destruct (f xt_trader _ (f_wall p) (snapshot p) w1) as [[[] | e'] w2];
      cbn [fst snd] in *; [discriminate |].
    now injection H1 as ->.
Qed.

Lemma exception_leaves_the_loop_witness :
  fst (main Sample.accepting
         [Cases.turn Sample.morning Cases.broken_data;
          Cases.turn Sample.after_close Sample.data] Sample.start)
  = Traceback IndexError.
Proof.
  apply (proj2 (exception_leaves_the_loop Sample.accepting Sample.acc
                  (Cases.turn Sample.morning Cases.broken_data)
                  [Cases.turn Sample.after_close Sample.data] Sample.start
                  IndexError
                  ltac:(unfold valid_time; cbn; lia)
                  ltac:(unfold in_window, window_open, window_close,
                          seconds_of_day;
                        cbn [wall Cases.turn hour minute second
                             Sample.morning]; lia)
                  ltac:(vm_compute; reflexivity))).
Defined.

(** X9: turns compose.  The loop over two runs of answers one after the
    other is the loop over the second from where the first leaves off, when
    the first is still polling at its end; when the first ends in a break or
    an exception, the second is never consulted. *)
Theorem polling_loop_app (xt_trader : XtQuantTrader) (acc : StockAccount)
  (first second : list Poll) (w : World) :
  polling_loop xt_trader acc (first ++ second) w =
  match polling_loop xt_trader acc first w with
  | (Polling, w') => polling_loop xt_trader acc second w'
  | ended => ended
  end.
Proof.
  revert w. induction first as [| p rest IH]; intros w; [reflexivity |].
  cbn [app polling_loop].
  destruct (negb (in_trading_window (strftime_HMS (wall p)))); [reflexivity |].
  destruct (poll_body xt_trader acc p w) as [[[] | e] w1];
    [apply IH | reflexivity].
Qed.

(** ** Polling the same data again *)

Lemma later_turns_nothing xt_trader acc acc0 now0 data w0 :
  forall later w,
    Forall (fun q => snapshot q = data) later ->
    hsa (A w) = hsa (A w0) ->
    incl (bought_list (A (snd (f xt_trader acc0 now0 data w0))))
         (bought_list (A w)) ->
    A (snd (polling_loop xt_trader acc later w)) = A w /\
    requests (snd (polling_loop xt_trader acc later w)) = requests w.
Proof.
  induction later as [| q later IH]; intros w Hsame Hu Hincl; [now split |].
  inversion Hsame as [| ? ? Hq Hrest]; subst.
  cbn [polling_loop].
  destruct (negb (in_trading_window (strftime_HMS (wall q)))); [now split |].
  rewrite poll_body_eq.
  set (w1 := snd (xtdata_call (GetMarketDataEx code_list) w)).
  assert (Hfix : snd (f xt_trader acc (f_wall q) (snapshot q) w1) = w1).
  { unfold f. apply (f_again_nothing xt_trader acc0 acc now0 (f_wall q)
                       (snapshot q) (keys (snapshot q)) w0 w1).
    - exact Hu.
    - exact Hincl. }
  destruct (f xt_trader acc (f_wall q) (snapshot q) w1) as [[[] | e] w2];
    cbn [snd] in Hfix; subst w2; [| now split].
  destruct (IH (snd (sleep 3 w1)) Hrest Hu Hincl) as [HA HR].
  cbn [sleep snd] in *. now rewrite HA, HR.
Qed.

(** X10: polling unchanged data again orders nothing more.  After a first
    turn inside the window, any number of further turns that get the same
    mapping leave the open list and the requests as one call of [f] on that
    mapping leaves them. *)
Theorem same_snapshot_orders_once (xt_trader : XtQuantTrader)
  (acc : StockAccount) (p : Poll) (later : list Poll) (w : World) :
  valid_time (wall p) ->
  in_window (wall p) ->
  Forall (fun q => snapshot q = snapshot p) later ->
  let once := snd (f xt_trader acc (f_wall p) (snapshot p) w) in
  let w' := snd (polling_loop xt_trader acc (p :: later) w) in
  A w' = A once /\ requests w' = requests once.
Proof.
  intros Hv Hin Hsame. cbv zeta.
  rewrite polling_loop_in_window, poll_body_eq by assumption.
  set (w1 := snd (xtdata_call (GetMarketDataEx code_list) w)).
  destruct (f_reads xt_trader xt_trader acc (f_wall p) (f_wall p) (snapshot p)
              w1 w eq_refl eq_refl eq_refl) as (_ & HA & HR).
  pose proof (perform_hsa xt_trader (CallF acc (f_wall p) (snapshot p)) w1)
    as Hh.
  cbn [perform] in Hh.
  destruct (later_turns_nothing xt_trader acc acc (f_wall p) (snapshot p) w1
              later
              (snd (sleep 3 (snd (f xt_trader acc (f_wall p) (snapshot p) w1))))
              Hsame) as [HA' HR'].
  - exact Hh.
  - apply incl_refl.
  - destruct (f xt_trader acc (f_wall p) (snapshot p) w1) as [[[] | e] w2];
      cbn [snd sleep] in *.
    + rewrite HA', HR'. now split.
    + now split.
Qed.

Lemma same_snapshot_orders_once_witness :
  sent (snd (polling_loop Sample.accepting Sample.acc
               [Cases.turn Cases.opening Sample.data;
                Cases.turn Sample.morning Sample.data;
                Cases.turn Sample.morning Sample.data] Sample.start))
  = [buy_order Sample.acc "600000.SH"].
Proof.
  unfold sent.
  rewrite (proj2 (same_snapshot_orders_once Sample.accepting Sample.acc
                    (Cases.turn Cases.opening Sample.data)
                    [Cases.turn Sample.morning Sample.data;
                     Cases.turn Sample.morning Sample.data] Sample.start
                    ltac:(unfold valid_time; cbn; lia)
                    ltac:(unfold in_window, window_open, window_close,
                            seconds_of_day;
                          cbn [wall Cases.turn hour minute second
                               Cases.opening]; lia)
                    ltac:(repeat constructor))).
  vm_compute. reflexivity.
Defined.

(** ** Callbacks between calls *)

Lemma callback_frame p t w :
  A (snd (callback p t w)) = A w /\ requests (snd (callback p t w)) = requests w.
Proof. destruct p; split; reflexivity. Qed.

(** X11: a push from the terminal cannot steer a decision.  Whether a
    handler runs before a call of [f] or after it, the call returns the same
    result and the open list and the requests come out the same; only the
    order of the printed lines differs. *)
Theorem callback_commutes_with_f (xt_trader : XtQuantTrader)
  (acc : StockAccount) (now : datetime) (data : Dict) (p : Push)
  (t : datetime) (w : World) :
  let pushed_first := f xt_trader acc now data (snd (callback p t w)) in
  let pushed_after := callback p t (snd (f xt_trader acc now data w)) in
  fst pushed_first = fst (f xt_trader acc now data w) /\
  A (snd pushed_first) = A (snd pushed_after) /\
  requests (snd pushed_first) = requests (snd pushed_after).
Proof.
  cbv zeta.
  destruct (callback_frame p t w) as [HA HR].
  destruct (callback_frame p t (snd (f xt_trader acc now data w))) as [HA' HR'].
  destruct (f_reads xt_trader xt_trader acc now now data
              (snd (callback p t w)) w eq_refl HA HR) as (Hr & HA2 & HR2).
  rewrite HA', HR'. now repeat split.
Qed.

(** ** What a run can and cannot do *)

Lemma run_preserves xt_trader (P : World -> Prop) :
  (forall op w, P w -> P (perform xt_trader op w)) ->
  forall ops w, P w -> P (run xt_trader ops w).
Proof.
  intros Hop. unfold run.
  induction ops as [| op ops IH]; intros w Hw; [exact Hw |].
  cbn [fold_left]. apply IH, Hop, Hw.
Qed.

Lemma perform_extends xt_trader op w :
  (exists more, bought_list (A (perform xt_trader op w))
                = bought_list (A w) ++ more) /\
  (exists more, requests (perform xt_trader op w) = requests w ++ more).
Proof.
  apply (perform_invariant xt_trader
           (fun w' => (exists more, bought_list (A w')
                                    = bought_list (A w) ++ more) /\
                      (exists more, requests w' = requests w ++ more))).
  - intros w1 w2 HA HR. now rewrite HA, HR.
  - intros acc now stock w1 _ _ [[l1 H1] [l2 H2]]. split.
    + exists (l1 ++ [stock]). cbn [bought A bought_list].
      now rewrite H1, app_assoc.
    + eexists (l2 ++ [_]). cbn [bought requests].
      rewrite H2, app_assoc. reflexivity.
  - split; exists []; now rewrite app_nil_r.
Qed.

(** X12: the open list and the requests only grow.  Through any sequence of
    operations the open list and the request log of the start are kept as
    they are and only added to at the end: nothing in the script takes an
    instrument off the open list or withdraws a request, so an instrument
    bought once is not bought again for the rest of the session. *)
Theorem run_only_appends (xt_trader : XtQuantTrader) (ops : list Operation)
  (w : World) :
  (exists more, bought_list (A (run xt_trader ops w))
                = bought_list (A w) ++ more) /\
  (exists more, requests (run xt_trader ops w) = requests w ++ more) /\
  (forall stock more_ops,
      In stock (bought_list (A w)) ->
      orders_for stock (run xt_trader more_ops (run xt_trader ops w))
      = orders_for stock (run xt_trader ops w)).
Proof.
  assert (Hext : forall ops' w0,
             (exists more, bought_list (A (run xt_trader ops' w0))
                           = bought_list (A w0) ++ more) /\
             (exists more, requests (run xt_trader ops' w0)
                           = requests w0 ++ more)).
  { intros ops' w0.
    apply (run_preserves xt_trader
             (fun w' => (exists more, bought_list (A w')
                                      = bought_list (A w0) ++ more) /\
                        (exists more, requests w' = requests w0 ++ more))).
    - intros op w1 [[l1 H1] [l2 H2]].
      destruct (perform_extends xt_trader op w1) as [[m1 E1] [m2 E2]].
      split; [exists (l1 ++ m1) | exists (l2 ++ m2)].
      + now rewrite E1, H1, app_assoc.
      + now rewrite E2, H2, app_assoc.
    - split; exists []; now rewrite app_nil_r. }
  destruct (Hext ops w) as [Hb Hr].
  split; [exact Hb | split; [exact Hr |]].
  intros stock more_ops Hheld.
  assert (Hheld' : In stock (bought_list (A (run xt_trader ops w)))).
  { destruct Hb as [more ->]. apply in_or_app. now left. }
  revert Hheld'. generalize (run xt_trader ops w) as w1. intros w1 Hheld1.
  enough (H : In stock (bought_list (A (run xt_trader more_ops w1))) /\
              orders_for stock (run xt_trader more_ops w1)
              = orders_for stock w1) by apply H.
  apply (run_preserves xt_trader
           (fun w' => In stock (bought_list (A w')) /\
                      orders_for stock w' = orders_for stock w1));
    [| now split].
  intros op w2 [Hin Hsame].
  apply (perform_invariant xt_trader
           (fun w' => In stock (bought_list (A w')) /\
                      orders_for stock w' = orders_for stock w1));
    [| | now split].
  - intros w3 w4 HA HR. unfold orders_for, sent. now rewrite HA, HR.
  - intros acc now s w3 _ Hnew [Hin3 Hsame3]. split.
    + cbn [bought A bought_list]. apply in_or_app. now left.
    + unfold orders_for in *. rewrite sent_bought, filter_app, Hsame3.
      cbn [filter buy_order stock_code].
      destruct (String.eqb_spec s stock); [subst; contradiction |].
      apply app_nil_r.
Qed.

Lemma run_only_appends_witness :
  let held := run Sample.accepting
                [CallF Sample.acc Sample.morning Sample.data] Sample.start in
  orders_for "600000.SH"
    (run Sample.accepting
       [Main [Cases.turn Sample.morning Sample.data];
        CallF Sample.acc Sample.morning Sample.data]
       (run Sample.accepting [] held))
  = orders_for "600000.SH" (run Sample.accepting [] held).
Proof.
  cbv zeta.
  apply (proj2 (proj2 (run_only_appends Sample.accepting [] _))).
  vm_compute. left. reflexivity.
Defined.

Lemma perform_lot_purchases xt_trader op w :
  Forall lot_purchase (sent w) ->
  Forall lot_purchase (sent (perform xt_trader op w)).
Proof.
  apply (perform_invariant xt_trader (fun w' => Forall lot_purchase (sent w'))).
  - intros w1 w2 _ HR. unfold sent. now rewrite HR.
  - intros acc now stock w1 _ _ H. rewrite sent_bought.
    apply Forall_app. split; [exact H |].
    constructor; [| constructor]. unfold lot_purchase. cbn. now repeat split.
Qed.

(** X13: the script only ever buys.  Every request made in a run from the
    initial state is a purchase of 100 shares at the latest price, with
    price argument -1, under the name "strategy_name" and with the
    instrument code as remark; there is no selling and no cancelling. *)
Theorem run_only_buys (xt_trader : XtQuantTrader) (ops : list Operation)
  (sector : list string) :
  Forall lot_purchase (sent (run xt_trader ops (initial sector))).
Proof.
  apply (run_preserves xt_trader (fun w => Forall lot_purchase (sent w))).
  - intros op w. apply perform_lot_purchases.
  - constructor.
Qed.

Lemma run_within_sector xt_trader ops sector :
  incl (bought_list (A (run xt_trader ops (initial sector)))) sector.
Proof.
  enough (H : hsa (A (run xt_trader ops (initial sector))) = sector /\
              incl (bought_list (A (run xt_trader ops (initial sector))))
                   (hsa (A (run xt_trader ops (initial sector)))))
    by (destruct H as [E H]; now rewrite E in H).
  apply (run_preserves xt_trader
           (fun w => hsa (A w) = sector /\
                     incl (bought_list (A w)) (hsa (A w)))).
  - intros op w [E H]. split.
    + now rewrite perform_hsa.
    + now apply perform_within_universe.
  - split; [reflexivity | intros s []].
Qed.

(** X14: a run places at most as many orders as the universe has
    instruments; with an empty universe it places none. *)
Theorem run_order_count_bounded (xt_trader : XtQuantTrader)
  (ops : list Operation) (sector : list string) :
  List.length (requests (run xt_trader ops (initial sector)))
  <= List.length sector.
Proof.
  destruct (run_consistent xt_trader ops sector) as (Hnd & Hmap & _).
  pose proof (run_within_sector xt_trader ops sector) as Hincl.
  apply (f_equal (@List.length string)) in Hmap.
  unfold sent in Hmap. rewrite !length_map in Hmap. rewrite Hmap.
  now apply NoDup_incl_length.
Qed.

(** ** The connection *)

Lemma polling_loop_reads xt1 xt2 acc :
  async_seq_of xt1 = async_seq_of xt2 ->
  forall polls w1 w2,
    A w1 = A w2 -> requests w1 = requests w2 ->
    fst (polling_loop xt1 acc polls w1) = fst (polling_loop xt2 acc polls w2) /\
    A (snd (polling_loop xt1 acc polls w1))
    = A (snd (polling_loop xt2 acc polls w2)) /\
    requests (snd (polling_loop xt1 acc polls w1))
    = requests (snd (polling_loop xt2 acc polls w2)).
Proof.
  intros Hseq. induction polls as [| p rest IH]; intros w1 w2 HA HR;
    [now repeat split |].
  cbn [polling_loop].
  destruct (negb (in_trading_window (strftime_HMS (wall p))));
    [now repeat split |].
  rewrite !poll_body_eq.
  destruct (f_reads xt1 xt2 acc (f_wall p) (f_wall p) (snapshot p)
              (snd (xtdata_call (GetMarketDataEx code_list) w1))
              (snd (xtdata_call (GetMarketDataEx code_list) w2))
              Hseq HA HR) as (Hr & HA' & HR').
  destruct (f xt1 acc (f_wall p) (snapshot p) _) as [[[] | e1] u1],
           (f xt2 acc (f_wall p) (snapshot p) _) as [[[] | e2] u2];
    cbn [fst snd] in *; try discriminate.
  - now apply IH.
  - injection Hr as ->. now repeat split.
Qed.

(** X15: the results of [connect] and [subscribe] are printed and never
    tested.  Whatever they are, the statements before the loop return
    normally, having printed "start" and then each result after its caption
    and having asked [xtdata] for the history and the quotes of the two
    codes in turn, and the run goes on to poll and to order exactly as it
    does with a terminal that reports success: the same ending, the same
    open list and the same requests. *)
Theorem connection_result_unchecked (xt_trader : XtQuantTrader)
  (connect_result subscribe_result : Z) (polls : list Poll) (w : World) :
  let other := mkTrader connect_result subscribe_result
                 (async_seq_of xt_trader) in
  fst (setup other w) = Ok tt /\
  stdout (snd (setup other w))
  = stdout w
    ++ [[PText "start"];
        [PText "建立交易连接，返回0表示连接成功"; PNum connect_result];
        [PText "对交易回调进行订阅，订阅后可以收到交易主推，返回0表示订阅成功";
         PNum subscribe_result]] /\
  xtdata_calls (snd (setup other w))
  = xtdata_calls w
    ++ [DownloadHistoryData "600000.SH"; SubscribeQuote "600000.SH";
        DownloadHistoryData "000001.SZ"; SubscribeQuote "000001.SZ"] /\
  fst (main other polls w) = fst (main xt_trader polls w) /\
  A (snd (main other polls w)) = A (snd (main xt_trader polls w)) /\
  requests (snd (main other polls w)) = requests (snd (main xt_trader polls w)).
Proof.
  cbv zeta. set (other := mkTrader _ _ _).
  split; [reflexivity |].
  split; [cbn; now rewrite <- !app_assoc |].
  split; [cbn; now rewrite <- !app_assoc |].
  unfold main.
  replace (setup other w) with (Ok tt, snd (setup other w)) by reflexivity.
  replace (setup xt_trader w) with (Ok tt, snd (setup xt_trader w))
    by reflexivity.
  destruct (polling_loop_reads other xt_trader
              (mkStockAccount "2000128" "STOCK") eq_refl polls
              (snd (setup other w)) (snd (setup xt_trader w))
              eq_refl eq_refl) as (Hr & HA & HR).
  destruct (polling_loop other _ polls _) as [[| e1 |] u1],
           (polling_loop xt_trader _ polls _) as [[| e2 |] u2];
    cbn [fst snd] in *; try discriminate; repeat split; congruence.
Qed.

(** ** The purchase within a call *)

(** C1, as the code has it: take an instrument of the universe that is not
    on the open list and whose frame ends with the closes 10.00 and 11.00,
    and let every instrument in front of it in the mapping have a frame of
    at least two price rows.  Then one call of [f] makes exactly one new
    order for it, a purchase of 100 shares at the latest price with the
    instrument as remark, and puts it on the open list once, whatever comes
    after it in the mapping; and the call returns normally when the
    instruments after it have frames of at least two price rows too. *)
Theorem f_buys_on_ten_percent_rise (xt_trader : XtQuantTrader)
  (acc : StockAccount) (now : datetime) (front back : Dict) (stock : string)
  (df : DataFrame) (w : World) :
  priced front ->
  ~ In stock (keys front) ->
  iloc df (-2) 0 = Ok 10%float ->
  iloc df (-1) 0 = Ok 11%float ->
  In stock (hsa (A w)) ->
  ~ In stock (bought_list (A w)) ->
  let data := front ++ (stock, df) :: back in
  let w' := snd (f xt_trader acc now data w) in
  orders_for stock w'
  = orders_for stock w
    ++ [mkOrder acc stock STOCK_BUY 100 LATEST_PRICE (-1) "strategy_name"
          stock] /\
  count_occ string_dec (bought_list (A w')) stock = 1 /\
  (priced back -> fst (f xt_trader acc now data w) = Ok tt).
Proof.
  intros Hp Hnew Hpre Hcur Hu Hfree. cbv zeta.
  set (data := front ++ (stock, df) :: back).
  assert (Hg : getitem data stock = Ok df).
  { subst data. rewrite getitem_app_new by assumption.
    cbn [getitem]. now rewrite String.eqb_refl. }
  assert (Hsig : signal data stock = Ok true)
    by (unfold signal; rewrite Hg, Hcur, Hpre; reflexivity).
  assert (Hfront : forall k, In k (keys front) ->
                             exists b, signal data k = Ok b).
  { intros k Hk. destruct (priced_signal front k Hp Hk) as [b Hb].
    exists b. rewrite <- Hb. unfold signal. subst data.
    now rewrite getitem_app_key. }
  assert (Hseg : forall k, In k (keys front ++ [stock]) ->
                           exists b, signal data k = Ok b).
  { intros k Hk. apply in_app_or in Hk.
    destruct Hk as [Hk | [<- | []]]; [auto | now exists true]. }
  assert (Hkeys : keys data = (keys front ++ [stock]) ++ keys back).
  { subst data. unfold keys. rewrite map_app. cbn [map fst].
    now rewrite <- app_assoc. }
  pose proof (keys_loop_buys xt_trader acc now data stock Hsig
                (keys front ++ [stock]) w Hseg) as Hbuy.
  cbv zeta in Hbuy.
  destruct Hbuy as [Ho Hc];
    [apply in_or_app; right; now left | exact Hu | exact Hfree |].
  pose proof (keys_loop_total xt_trader acc now data (keys front ++ [stock])
                w Hseg) as Hok.
  unfold f. rewrite Hkeys, for_each_app.
  destruct (for_each (keys front ++ [stock])
              (f_stock xt_trader acc now data) w) as [[[] | e] w1];
    cbn [fst snd] in *; [| discriminate].
  assert (Hin1 : In stock (bought_list (A w1)))
    by (apply (count_occ_In string_dec); lia).
  pose proof (held_stays_held xt_trader acc now data stock (keys back) w1
                Hin1) as Hkeep.
  cbv zeta in Hkeep. destruct Hkeep as [Ho2 Hc2].
  split; [now rewrite Ho2 | split; [now rewrite Hc2 |]].
  intros Hb. apply keys_loop_total. intros k Hk.
  destruct (in_dec string_dec k (keys front ++ [stock])) as [Hin | Hout];
    [now apply Hseg |].
  destruct (priced_signal back k Hb Hk) as [b Hsb].
  exists b. rewrite <- Hsb. unfold signal. subst data.
  rewrite getitem_app_new
    by (intros H; apply Hout, in_or_app; now left).
  cbn [getitem].
  destruct (String.eqb_spec k stock) as [E | N]; [| reflexivity].
  exfalso. apply Hout, in_or_app. right. now left.
Qed.

Lemma f_buys_on_ten_percent_rise_witness :
  let w' := snd (f Sample.accepting Sample.acc Sample.morning
                   Cases.broken_data Sample.start) in
  orders_for "600000.SH" w'
  = [mkOrder Sample.acc "600000.SH" STOCK_BUY 100 LATEST_PRICE (-1)
       "strategy_name" "600000.SH"] /\
  count_occ string_dec (bought_list (A w')) "600000.SH" = 1.
Proof.
  cbv zeta.
  destruct (f_buys_on_ten_percent_rise Sample.accepting Sample.acc
              Sample.morning []
              [("000001.SZ", Cases.single); ("600519.SH", Sample.rising)]
              "600000.SH" Sample.rising Sample.start) as (Ho & Hc & _).
  - constructor.
  - intros [].
  - reflexivity.
  - reflexivity.
  - cbn. auto.
  - intros [].
  - split; [exact Ho | exact Hc].
Defined.

(** C1, counterexample: 600000.SH is in the universe, is not on the open
    list and its frame ends with the closes 10.00 and 11.00, but the key in
    front of it, also in the universe, has a frame of one row: the call ends
    in [IndexError] before it reaches 600000.SH, with no order made and
    nothing put on the open list. *)
Lemma short_frame_in_front_prevents_purchase :
  let r := f Sample.accepting Sample.acc Sample.morning Cases.short_first
             Sample.start in
  getitem Cases.short_first "600000.SH" = Ok Sample.rising /\
  iloc Sample.rising (-2) 0 = Ok 10%float /\
  iloc Sample.rising (-1) 0 = Ok 11%float /\
  In "600000.SH" (hsa (A Sample.start)) /\
  ~ In "600000.SH" (bought_list (A Sample.start)) /\
  fst r = Raise IndexError /\
  orders_for "600000.SH" (snd r) = [] /\
  sent (snd r) = [] /\
  bought_list (A (snd r)) = [].
Proof.
  cbv zeta.
  split; [reflexivity |]. split; [reflexivity |]. split; [reflexivity |].
  split; [cbn; auto |]. split; [intros [] |].
  repeat split; vm_compute; reflexivity.
Qed.

(** C4, counterexample: after 600000.SH was ordered, with itself as remark,
    the terminal reports a failed cancellation; the handler prints the clock
    and its own name, and the remark is not in the line. *)
Lemma cancel_error_logs_no_remark :
  let w := snd (f Sample.accepting Sample.acc Sample.morning Sample.data
                  Sample.start) in
  let w' := snd (callback (CancelError Cases.cancel_failed)
                   Sample.after_close w) in
  map order_remark (sent w) = ["600000.SH"] /\
  stdout w' = stdout w ++ [[PTime Sample.after_close; PText "on_cancel_error"]] /\
  ~ In (PText "600000.SH") [PTime Sample.after_close; PText "on_cancel_error"].
Proof.
  cbv zeta. split; [vm_compute; reflexivity |]. split; [reflexivity |].
  intros [H | [H | []]]; discriminate.
Qed.
